(** * The in-memory CRUD routers of the logistics API

    A shallow embedding of [routers/v1/senders.py],
    [routers/v1/delivery_staffs_router.py], [routers/v1/stations_router.py]
    and [routers/v1/vehicles.py].  The four files are the same handler
    bodies up to renaming; what differs between them (the request models,
    the field that must be unique, the response model and the two error
    messages) is collected in a [Router] record, and the handlers are
    written once over it.

    Every handler is a function of the module-level state (the dictionary
    [*_db] and the counter [next_id]) that returns the new state and the
    outcome of the call.  [datetime.now()] is an argument of the handlers
    that read the clock. *)

From stdpp Require Import base option list gmap strings numbers sorting.
From Stdlib Require Import ZArith Lia.

Open Scope Z_scope.

(** ** Python values and dictionaries *)

(** The values that occur in the stored rows: [None], booleans, the
    integer id, strings and [datetime]s (a point in time is an integer). *)
Inductive value : Type :=
  | VNone
  | VBool (b : bool)
  | VInt (n : Z)
  | VStr (s : string)
  | VTime (t : Z).

#[global] Instance value_eq_dec : EqDecision value.
Proof. solve_decision. Defined.

(** Python's truth test, as used by [if sender_update.email:]. *)
Definition truthy (v : value) : bool :=
  match v with
  | VNone => false
  | VBool b => b
  | VInt n => negb (n =? 0)
  | VStr s => negb (bool_decide (s = EmptyString))
  | VTime _ => true
  end.

(** A row of a store, the result of [model_dump()], a [dict] keyed by field
    names.  The order of the fields plays no role in the handlers. *)
Abbreviation pydict := (gmap string value).

(** [d.get(k)] with the default [None]; also the value of the attribute [k]
    of an update model whose set fields are [d], because every field of an
    update model is declared with the default [None]. *)
Definition getattr (d : pydict) (k : string) : value :=
  default VNone (d !! k).

(** ** The store dictionary [dict[int, dict]]

    Python dictionaries keep their keys in insertion order and the listing
    handler depends on it, so the store is an association list: assigning
    to a new key appends, assigning to a present key replaces the value
    where it stands, [del] removes the entry. *)
Module OrderedDict.

Abbreviation t V := (list (Z * V)).

Fixpoint get {V} (k : Z) (d : t V) : option V :=
  match d with
  | [] => None
  | (k', v) :: d' => if decide (k = k') then Some v else get k d'
  end.

Fixpoint set {V} (k : Z) (v : V) (d : t V) : t V :=
  match d with
  | [] => [(k, v)]
  | (k', v') :: d' =>
      if decide (k = k') then (k, v) :: d' else (k', v') :: set k v d'
  end.

Definition del {V} (k : Z) (d : t V) : t V :=
  filter (λ kv, kv.1 ≠ k) d.

Definition keys {V} (d : t V) : list Z := d.*1.
Definition values {V} (d : t V) : list V := d.*2.
Definition items {V} (d : t V) : list (Z * V) := d.

End OrderedDict.

(** Python's [l[a:b]]: a negative bound counts from the end, and both
    bounds are clamped to the length. *)
Definition clamp_index (n i : Z) : Z :=
  if i <? 0 then Z.max (i + n) 0 else Z.min i n.

Definition py_slice {A} (a b : Z) (l : list A) : list A :=
  let n := Z.of_nat (length l) in
  let lo := clamp_index n a in
  let hi := clamp_index n b in
  take (Z.to_nat (hi - lo)) (drop (Z.to_nat lo) l).

(** ** Outcomes of a handler

    A handler returns its response model, raises [HTTPException] with a
    status code and a detail message, or dies on the pydantic
    [ValidationError] raised by the constructor of the response model. *)
Inductive outcome (A : Type) : Type :=
  | Ok (a : A)
  | HTTPException (status_code : Z) (detail : string)
  | ValidationError.
Arguments Ok {A} a.
Arguments HTTPException {A} status_code detail.
Arguments ValidationError {A}.

Definition is_ok {A} (o : outcome A) : bool :=
  match o with Ok _ => true | _ => false end.

(** [[f(x) for x in l]] where [f] may raise: the first exception wins. *)
Fixpoint map_outcome {A B} (f : A → outcome B) (l : list A) : outcome (list B) :=
  match l with
  | [] => Ok []
  | x :: l' =>
      match f x with
      | Ok y =>
          match map_outcome f l' with
          | Ok ys => Ok (y :: ys)
          | HTTPException c d => HTTPException c d
          | ValidationError => ValidationError
          end
      | HTTPException c d => HTTPException c d
      | ValidationError => ValidationError
      end
  end.

(** ** Pydantic models *)

(** The annotations that occur in the response models. *)
Inductive annotation : Type :=
  | TInt          (* int *)
  | TDatetime     (* datetime *)
  | TStr          (* str, EmailStr *)
  | TOptionalStr  (* Optional[str] = None *)
  | TBool.        (* bool *)

(** Does the keyword argument [v] (absent when [None : option]) validate
    against the annotation?  Only an [Optional] field with a default
    accepts [None] or a missing argument. *)
Definition validates (a : annotation) (v : option value) : bool :=
  match a, v with
  | TInt, Some (VInt _) => true
  | TDatetime, Some (VTime _) => true
  | TStr, Some (VStr _) => true
  | TOptionalStr, (Some (VStr _) | Some VNone | None) => true
  | TBool, Some (VBool _) => true
  | _, _ => false
  end.

(** A field of an update model, [Optional[A] = None]: left out of the
    request body, given as [null], or given a value.  [model_dump
    (exclude_unset=True)] keeps the last two. *)
Inductive field (A : Type) : Type :=
  | Unset
  | Null
  | Given (a : A).
Arguments Unset {A}.
Arguments Null {A}.
Arguments Given {A} a.

Definition dump_field {A} (k : string) (enc : A → value) (f : field A) : pydict :=
  match f with
  | Unset => ∅
  | Null => {[ k := VNone ]}
  | Given a => {[ k := enc a ]}
  end.

Definition dump_optional (o : option string) : value :=
  match o with None => VNone | Some s => VStr s end.

(** ** What the four routers differ in *)

Record Router : Type := {
  (** [SenderCreate], [StationCreate], ...: the validated body of a POST. *)
  CreateModel : Type;
  (** [SenderUpdate], [StationUpdate], ...: the validated body of a PUT. *)
  UpdateModel : Type;
  (** The field compared by the duplicate checks. *)
  unique_field : string;
  (** [model.model_dump()] of a create model. *)
  model_dump : CreateModel → pydict;
  (** [model.model_dump(exclude_unset=True)] of an update model. *)
  model_dump_exclude_unset : UpdateModel → pydict;
  (** The fields of the response model ([Sender], [Station], ...). *)
  response_model : list (string * annotation);
  (** The [detail] of the 404 and of the 400. *)
  not_found_detail : string;
  duplicate_detail : string
}.

(** The module-level state of one router file. *)
Record store : Type := {
  db : OrderedDict.t pydict;
  next_id : Z
}.

(** [senders_db = {}], [next_id = 1]. *)
Definition initial : store := {| db := []; next_id := 1 |}.

Section Handlers.
Import OrderedDict.
Variable R : Router.

(** The constructor call of the response model on a row, as in [Sender]
    applied to the unpacked [existing_sender]: every declared field must
    validate, and the model then carries the values of the row. *)
Definition construct (row : pydict) : outcome pydict :=
  if forallb (λ fa, validates fa.2 (row !! fa.1)) (response_model R)
  then Ok row
  else ValidationError.

(** [get_senders(skip, limit, is_active)] *)
Definition get_all (skip limit : Z) (is_active : option bool) (st : store)
  : outcome (list pydict) :=
  let rows := values (db st) in
  let rows :=
    match is_active with
    | Some b => filter (λ s, s !! "is_active" = Some (VBool b)) rows
    | None => rows
    end in
  let rows := py_slice skip (skip + limit) rows in
  map_outcome construct rows.

(** [get_sender(sender_id)] *)
Definition get_one (id : Z) (st : store) : outcome pydict :=
  match get id (db st) with
  | None => HTTPException 404 (not_found_detail R)
  | Some row => construct row
  end.

(** The dictionary literal of [create_sender]; the keys of the dump come
    last and would win over the three store-assigned ones. *)
Definition new_row (c : CreateModel R) (id now : Z) : pydict :=
  model_dump R c ∪
  {[ "id" := VInt id; "created_at" := VTime now; "updated_at" := VTime now ]}.

(** The loop of [create_sender] that looks for a row with the key of the
    new record; [sender.email] is the value the dump holds for the field. *)
Definition key_taken (c : CreateModel R) (st : store) : bool :=
  let key := getattr (model_dump R c) (unique_field R) in
  existsb (λ existing, bool_decide (existing !! unique_field R = Some key))
    (values (db st)).

(** [create_sender(sender)].  The row is stored before the response model
    is built, and the counter is advanced after it. *)
Definition create (c : CreateModel R) (now : Z) (st : store)
  : store * outcome pydict :=
  if key_taken c st
  then (st, HTTPException 400 (duplicate_detail R))
  else
    let data := new_row c (next_id st) now in
    let db' := set (next_id st) data (db st) in
    match construct data with
    | Ok result => ({| db := db'; next_id := next_id st + 1 |}, Ok result)
    | HTTPException s d => ({| db := db'; next_id := next_id st |}, HTTPException s d)
    | ValidationError => ({| db := db'; next_id := next_id st |}, ValidationError)
    end.

(** The loop of [update_sender] that looks for another row with the same
    key; [sender_update.email] is [None] unless the field was set. *)
Definition taken_by_other (id : Z) (key : value) (d : OrderedDict.t pydict) : bool :=
  existsb (λ item, bool_decide (item.1 ≠ id) &&
                   bool_decide (item.2 !! unique_field R = Some key))
    (items d).

(** [update_sender(sender_id, sender_update)].  [existing_sender] is the
    dictionary held by the store, so [existing_sender.update(...)] changes
    the stored row; this happens before the response model is built. *)
Definition update (id : Z) (u : UpdateModel R) (now : Z) (st : store)
  : store * outcome pydict :=
  match get id (db st) with
  | None => (st, HTTPException 404 (not_found_detail R))
  | Some existing =>
      let key := getattr (model_dump_exclude_unset R u) (unique_field R) in
      if truthy key && taken_by_other id key (db st)
      then (st, HTTPException 400 (duplicate_detail R))
      else
        let update_data := model_dump_exclude_unset R u in
        if bool_decide (update_data = ∅)
        then (st, construct existing)
        else
          let existing' := <[ "updated_at" := VTime now ]> (update_data ∪ existing) in
          ({| db := set id existing' (db st); next_id := next_id st |},
           construct existing')
  end.

(** [patch_sender] calls [update_sender]. *)
Definition patch (id : Z) (u : UpdateModel R) (now : Z) (st : store)
  : store * outcome pydict :=
  update id u now st.

(** [delete_sender(sender_id)] *)
Definition delete (id : Z) (st : store) : store * outcome unit :=
  match get id (db st) with
  | None => (st, HTTPException 404 (not_found_detail R))
  | Some _ => ({| db := del id (db st); next_id := next_id st |}, Ok ())
  end.

(** The two assignments shared by [activate_sender] and
    [deactivate_sender]. *)
Definition set_active (b : bool) (id : Z) (now : Z) (st : store)
  : store * outcome pydict :=
  match get id (db st) with
  | None => (st, HTTPException 404 (not_found_detail R))
  | Some row =>
      let row' := <[ "updated_at" := VTime now ]> (<[ "is_active" := VBool b ]> row) in
      ({| db := set id row' (db st); next_id := next_id st |}, construct row')
  end.

(** [activate_sender(sender_id)] *)
Definition activate : Z → Z → store → store * outcome pydict := set_active true.

(** [deactivate_sender(sender_id)] *)
Definition deactivate : Z → Z → store → store * outcome pydict := set_active false.

End Handlers.

(** ** The four routers *)

(** [routers/v1/senders.py].  An [EmailStr] is a [str] that passed
    pydantic's syntax check when the request was decoded; the handlers only
    compare e-mails. *)
Module Senders.

(** [SenderBase] and [SenderCreate] *)
Record SenderCreate : Type := {
  name : string;
  email : string;
  phone : option string;
  address : option string;
  is_active : bool
}.

(** The declared defaults: [phone] and [address] default to [None],
    [is_active] to [True]; an argument that is left out is [None] here. *)
Definition SenderCreate_init (name email : string) (phone address : option string)
    (is_active : option bool) : SenderCreate :=
  {| name := name; email := email; phone := phone; address := address;
     is_active := default true is_active |}.

Record SenderUpdate : Type := {
  set_name : field string;
  set_email : field string;
  set_phone : field string;
  set_address : field string;
  set_is_active : field bool
}.

Definition dump (c : SenderCreate) : pydict :=
  {[ "name" := VStr (name c); "email" := VStr (email c);
     "phone" := dump_optional (phone c);
     "address" := dump_optional (address c);
     "is_active" := VBool (is_active c) ]}.

Definition dump_set (u : SenderUpdate) : pydict :=
  dump_field "name" VStr (set_name u) ∪
  dump_field "email" VStr (set_email u) ∪
  dump_field "phone" VStr (set_phone u) ∪
  dump_field "address" VStr (set_address u) ∪
  dump_field "is_active" VBool (set_is_active u).

(** [Sender] *)
Definition Sender : list (string * annotation) :=
  [ ("name", TStr); ("email", TStr); ("phone", TOptionalStr);
    ("address", TOptionalStr); ("is_active", TBool);
    ("id", TInt); ("created_at", TDatetime); ("updated_at", TDatetime) ].

Definition router : Router := {|
  CreateModel := SenderCreate;
  UpdateModel := SenderUpdate;
  unique_field := "email";
  model_dump := dump;
  model_dump_exclude_unset := dump_set;
  response_model := Sender;
  not_found_detail := "Sender not found";
  duplicate_detail := "Email already registered"
|}.

(** The request body [{}] *)
Definition nothing : SenderUpdate :=
  {| set_name := Unset; set_email := Unset; set_phone := Unset;
     set_address := Unset; set_is_active := Unset |}.

End Senders.

(** [routers/v1/delivery_staffs_router.py]: the models [DeliveryStaffBase],
    [DeliveryStaffUpdate] and [DeliveryStaff] declare the fields of the
    sender models, so the same records stand for them. *)
Module DeliveryStaffs.

Definition router : Router := {|
  CreateModel := Senders.SenderCreate;
  UpdateModel := Senders.SenderUpdate;
  unique_field := "email";
  model_dump := Senders.dump;
  model_dump_exclude_unset := Senders.dump_set;
  response_model := Senders.Sender;
  not_found_detail := "Delivery staff not found";
  duplicate_detail := "Email already registered"
|}.

End DeliveryStaffs.

(** [routers/v1/stations_router.py] *)
Module Stations.

Record StationCreate : Type := {
  name : string;
  location : option string;
  is_active : bool
}.

(** The declared defaults: [location] defaults to [None], [is_active] to
    [True]; an argument that is left out is [None] here. *)
Definition StationCreate_init (name : string) (location : option string)
    (is_active : option bool) : StationCreate :=
  {| name := name; location := location; is_active := default true is_active |}.

Record StationUpdate : Type := {
  set_name : field string;
  set_location : field string;
  set_is_active : field bool
}.

Definition dump (c : StationCreate) : pydict :=
  {[ "name" := VStr (name c);
     "location" := dump_optional (location c);
     "is_active" := VBool (is_active c) ]}.

Definition dump_set (u : StationUpdate) : pydict :=
  dump_field "name" VStr (set_name u) ∪
  dump_field "location" VStr (set_location u) ∪
  dump_field "is_active" VBool (set_is_active u).

Definition Station : list (string * annotation) :=
  [ ("name", TStr); ("location", TOptionalStr); ("is_active", TBool);
    ("id", TInt); ("created_at", TDatetime); ("updated_at", TDatetime) ].

Definition router : Router := {|
  CreateModel := StationCreate;
  UpdateModel := StationUpdate;
  unique_field := "name";
  model_dump := dump;
  model_dump_exclude_unset := dump_set;
  response_model := Station;
  not_found_detail := "Station not found";
  duplicate_detail := "Station name already exists"
|}.

Definition nothing : StationUpdate :=
  {| set_name := Unset; set_location := Unset; set_is_active := Unset |}.

End Stations.

(** [routers/v1/vehicles.py] *)
Module Vehicles.

Record VehicleCreate : Type := {
  license_plate : string;
  type : option string;
  brand : option string;
  color : option string;
  is_active : bool
}.

(** The declared defaults: [type], [brand] and [color] default to [None],
    [is_active] to [True]; an argument that is left out is [None] here. *)
Definition VehicleCreate_init (license_plate : string)
    (type brand color : option string) (is_active : option bool) : VehicleCreate :=
  {| license_plate := license_plate; type := type; brand := brand;
     color := color; is_active := default true is_active |}.

Record VehicleUpdate : Type := {
  set_license_plate : field string;
  set_type : field string;
  set_brand : field string;
  set_color : field string;
  set_is_active : field bool
}.

Definition dump (c : VehicleCreate) : pydict :=
  {[ "license_plate" := VStr (license_plate c);
     "type" := dump_optional (type c);
     "brand" := dump_optional (brand c);
     "color" := dump_optional (color c);
     "is_active" := VBool (is_active c) ]}.

Definition dump_set (u : VehicleUpdate) : pydict :=
  dump_field "license_plate" VStr (set_license_plate u) ∪
  dump_field "type" VStr (set_type u) ∪
  dump_field "brand" VStr (set_brand u) ∪
  dump_field "color" VStr (set_color u) ∪
  dump_field "is_active" VBool (set_is_active u).

Definition Vehicle : list (string * annotation) :=
  [ ("license_plate", TStr); ("type", TOptionalStr); ("brand", TOptionalStr);
    ("color", TOptionalStr); ("is_active", TBool);
    ("id", TInt); ("created_at", TDatetime); ("updated_at", TDatetime) ].

Definition router : Router := {|
  CreateModel := VehicleCreate;
  UpdateModel := VehicleUpdate;
  unique_field := "license_plate";
  model_dump := dump;
  model_dump_exclude_unset := dump_set;
  response_model := Vehicle;
  not_found_detail := "Vehicle not found";
  duplicate_detail := "License plate already exists"
|}.

Definition nothing : VehicleUpdate :=
  {| set_license_plate := Unset; set_type := Unset; set_brand := Unset;
     set_color := Unset; set_is_active := Unset |}.

End Vehicles.

(** The collections of the API that have a router in the sources. *)
Inductive collection : Type :=
  | senders
  | delivery_staffs
  | stations
  | vehicles.

Definition router_of (c : collection) : Router :=
  match c with
  | senders => Senders.router
  | delivery_staffs => DeliveryStaffs.router
  | stations => Stations.router
  | vehicles => Vehicles.router
  end.

(** The attribute [is_active] of the create model of a collection. *)
Definition create_is_active (c : collection) : CreateModel (router_of c) → bool :=
  match c with
  | senders => Senders.is_active
  | delivery_staffs => Senders.is_active
  | stations => Stations.is_active
  | vehicles => Vehicles.is_active
  end.

(** The handlers under the names of [senders.py], [stations_router.py] and
    [vehicles.py]. *)
Definition get_senders := get_all Senders.router.
Definition get_sender := get_one Senders.router.
Definition create_sender := create Senders.router.
Definition update_sender := update Senders.router.
Definition patch_sender := patch Senders.router.
Definition delete_sender := delete Senders.router.
Definition activate_sender := activate Senders.router.
Definition deactivate_sender := deactivate Senders.router.

Definition get_stations := get_all Stations.router.
Definition create_station := create Stations.router.
Definition update_station := update Stations.router.
Definition delete_station := delete Stations.router.

Definition get_vehicles := get_all Vehicles.router.
Definition create_vehicle := create Vehicles.router.
Definition update_vehicle := update Vehicles.router.
Definition delete_vehicle := delete Vehicles.router.

(** ** Sequences of calls *)

(** The calls that write to the store.  The clock reading of a call is part
    of the request. *)
Inductive request (R : Router) : Type :=
  | Create (c : CreateModel R) (now : Z)
  | Update (id : Z) (u : UpdateModel R) (now : Z)
  | Patch (id : Z) (u : UpdateModel R) (now : Z)
  | Delete (id : Z)
  | Activate (id : Z) (now : Z)
  | Deactivate (id : Z) (now : Z).
Arguments Create {R} c now.
Arguments Update {R} id u now.
Arguments Patch {R} id u now.
Arguments Delete {R} id.
Arguments Activate {R} id now.
Arguments Deactivate {R} id now.

(** The body of a response: a record, or nothing for the 204 of DELETE. *)
Definition reply : Type := outcome (option pydict).

Definition with_body (r : store * outcome pydict) : store * reply :=
  (r.1, match r.2 with
        | Ok row => Ok (Some row)
        | HTTPException s d => HTTPException s d
        | ValidationError => ValidationError
        end).

Definition no_body (r : store * outcome unit) : store * reply :=
  (r.1, match r.2 with
        | Ok _ => Ok None
        | HTTPException s d => HTTPException s d
        | ValidationError => ValidationError
        end).

Definition handle (R : Router) (q : request R) (st : store) : store * reply :=
  match q with
  | Create c now => with_body (create R c now st)
  | Update id u now => with_body (update R id u now st)
  | Patch id u now => with_body (patch R id u now st)
  | Delete id => no_body (delete R id st)
  | Activate id now => with_body (activate R id now st)
  | Deactivate id now => with_body (deactivate R id now st)
  end.

(** The state after a sequence of calls, and the replies in order. *)
Fixpoint run (R : Router) (qs : list (request R)) (st : store) : store * list reply :=
  match qs with
  | [] => (st, [])
  | q :: qs' =>
      let r := handle R q st in
      let rest := run R qs' r.1 in
      (rest.1, r.2 :: rest.2)
  end.

(** The [id] of the record returned by a successful POST. *)
Definition assigned_id {R} (q : request R) (r : reply) : option value :=
  match q, r with
  | Create _ _, Ok (Some row) => row !! "id"
  | _, _ => None
  end.

(** The ids handed out by the POSTs of a sequence of calls, in order. *)
Fixpoint assigned_ids (R : Router) (qs : list (request R)) (st : store) : list value :=
  match qs with
  | [] => []
  | q :: qs' =>
      let r := handle R q st in
      match assigned_id q r.2 with
      | Some v => v :: assigned_ids R qs' r.1
      | None => assigned_ids R qs' r.1
      end
  end.

(** ** Predicates on stores *)

(** No two stored rows agree on the field that must be unique. *)
Definition unique_keys (R : Router) (st : store) : Prop :=
  ∀ i j ri rj,
    OrderedDict.get i (db st) = Some ri →
    OrderedDict.get j (db st) = Some rj →
    i ≠ j →
    ri !! unique_field R ≠ rj !! unique_field R.

(** The row can be returned: the response model accepts it. *)
Definition presentable (R : Router) (row : pydict) : Prop :=
  construct R row = Ok row.

(** The rows a listing selects before it cuts out the page. *)
Definition matching (is_active : option bool) (st : store) : list pydict :=
  match is_active with
  | Some b => filter (λ s, s !! "is_active" = Some (VBool b)) (OrderedDict.values (db st))
  | None => OrderedDict.values (db st)
  end.

(** The counter is positive, the keys are listed in ascending order below
    it, and every row carries its key as [id]. *)
Record ordered (st : store) : Prop := {
  ordered_counter : 0 < next_id st;
  ordered_keys : StronglySorted Z.lt (OrderedDict.keys (db st));
  ordered_below : Forall (λ k, 0 < k < next_id st) (OrderedDict.keys (db st));
  ordered_ids : Forall (λ item, item.2 !! "id" = Some (VInt item.1)) (db st)
}.

(** Every row has the two entries the handlers subscript: ["is_active"] in
    the listing, the key field in the duplicate checks.  (A subscript of a
    missing entry raises [KeyError] in Python; [!!] then gives [None].) *)
Definition complete (R : Router) (st : store) : Prop :=
  Forall (λ row : pydict, is_Some (row !! "is_active") ∧
                          is_Some (row !! unique_field R))
    (OrderedDict.values (db st)).

(** The [id] a row carries. *)
Definition record_id (row : pydict) : Z :=
  match row !! "id" with
  | Some (VInt n) => n
  | _ => 0
  end.

(** Does the message contain the text? *)
Definition mentions (detail text : string) : bool :=
  match String.index 0%nat text detail with
  | Some _ => true
  | None => false
  end.

(** ** Requests, read off *)

(** The id in the path of a call, if it has one. *)
Definition target {R} (q : request R) : option Z :=
  match q with
  | Create _ _ => None
  | Update id _ _ | Patch id _ _ | Delete id | Activate id _ | Deactivate id _ =>
      Some id
  end.

(** The clock reading of a call, if its handler reads the clock. *)
Definition request_time {R} (q : request R) : option Z :=
  match q with
  | Create _ now | Update _ _ now | Patch _ _ now
  | Activate _ now | Deactivate _ now => Some now
  | Delete _ => None
  end.

(** The clock does not run backwards from [T] on along the calls. *)
Fixpoint chronological {R} (T : Z) (qs : list (request R)) : Prop :=
  match qs with
  | [] => True
  | q :: qs' =>
      match request_time q with
      | Some now => T ≤ now ∧ chronological now qs'
      | None => chronological T qs'
      end
  end.

(** The last clock reading of the calls, [T] when none of them reads the
    clock. *)
Fixpoint last_reading {R} (T : Z) (qs : list (request R)) : Z :=
  match qs with
  | [] => T
  | q :: qs' =>
      match request_time q with
      | Some now => last_reading now qs'
      | None => last_reading T qs'
      end
  end.

(** The body of a PUT or PATCH leaves the key field out, or gives it a
    value that passes the truth test in front of the duplicate check. *)
Definition key_checked {R} (q : request R) : Prop :=
  match q with
  | Update _ u _ | Patch _ u _ =>
      model_dump_exclude_unset R u !! unique_field R = None ∨
      truthy (getattr (model_dump_exclude_unset R u) (unique_field R)) = true
  | _ => True
  end.

(** The row was created no later than it was last updated, and that no
    later than [T]. *)
Definition stamped (T : Z) (row : pydict) : Prop :=
  ∃ a b, row !! "created_at" = Some (VTime a) ∧
         row !! "updated_at" = Some (VTime b) ∧ a ≤ b ≤ T.

(** ** Sample requests and stores *)

Module Samples.

(** The body [{"name": "A", "email": "a@x.com"}] *)
Definition sender_a : Senders.SenderCreate :=
  Senders.SenderCreate_init "A" "a@x.com" None None None.

(** The body [{"name": "B", "email": "b@x.com"}] *)
Definition sender_b : Senders.SenderCreate :=
  Senders.SenderCreate_init "B" "b@x.com" None None None.

(** Two senders are posted, the first is deleted, and its body is posted
    again. *)
Definition post_post_delete_post : list (request Senders.router) :=
  [Create (R := Senders.router) sender_a 1;
   Create (R := Senders.router) sender_b 2;
   Delete (R := Senders.router) 1;
   Create (R := Senders.router) sender_a 3].

(** The first three of these calls. *)
Definition post_post_delete : list (request Senders.router) :=
  [Create (R := Senders.router) sender_a 1;
   Create (R := Senders.router) sender_b 2;
   Delete (R := Senders.router) 1].

(** The bodies [{"name": "C", "email": "c@x.com"}] and
    [{"name": "D", "email": "d@x.com"}] *)
Definition sender_c : Senders.SenderCreate :=
  Senders.SenderCreate_init "C" "c@x.com" None None None.

Definition sender_d : Senders.SenderCreate :=
  Senders.SenderCreate_init "D" "d@x.com" None None None.

(** Four senders are posted, the second is deactivated and the first is
    deleted: senders 2, 3 and 4 are left, of which 3 and 4 are active. *)
Definition four_posted_one_off_one_gone : list (request Senders.router) :=
  [Create (R := Senders.router) sender_a 1;
   Create (R := Senders.router) sender_b 2;
   Create (R := Senders.router) sender_c 3;
   Create (R := Senders.router) sender_d 4;
   Deactivate (R := Senders.router) 2 5;
   Delete (R := Senders.router) 1].

(** The rows of senders 3 and 4 after these calls. *)
Definition sender_3 : pydict :=
  {[ "id" := VInt 3; "created_at" := VTime 3; "updated_at" := VTime 3;
     "name" := VStr "C"; "email" := VStr "c@x.com";
     "phone" := VNone; "address" := VNone; "is_active" := VBool true ]}.

Definition sender_4 : pydict :=
  {[ "id" := VInt 4; "created_at" := VTime 4; "updated_at" := VTime 4;
     "name" := VStr "D"; "email" := VStr "d@x.com";
     "phone" := VNone; "address" := VNone; "is_active" := VBool true ]}.

(** The same body with ["is_active": false] *)
Definition sender_a_inactive : Senders.SenderCreate :=
  Senders.SenderCreate_init "A" "a@x.com" None None (Some false).

(** The body [{"name": null}] of a PUT *)
Definition name_null : Senders.SenderUpdate :=
  {| Senders.set_name := Null; Senders.set_email := Unset;
     Senders.set_phone := Unset; Senders.set_address := Unset;
     Senders.set_is_active := Unset |}.

(** The store after [sender_a] was posted at time 1. *)
Definition one_sender : store := (create_sender sender_a 1 initial).1.

(** ... and [{"name": null}] was put to it at time 2. *)
Definition nameless_sender : store := (update_sender 1 name_null 2 one_sender).1.

(** The body [{"name": n}] of a POST to the stations *)
Definition station (n : string) : Stations.StationCreate :=
  {| Stations.name := n; Stations.location := None; Stations.is_active := true |}.

(** The body [{"location": l}] of a PUT to the stations *)
Definition move_to (l : string) : Stations.StationUpdate :=
  {| Stations.set_name := Unset; Stations.set_location := Given l;
     Stations.set_is_active := Unset |}.

Definition one_station : store := (create_station (station "S1") 1 initial).1.

(** The body [{"license_plate": p}] of a POST to the vehicles *)
Definition vehicle (p : string) : Vehicles.VehicleCreate :=
  {| Vehicles.license_plate := p; Vehicles.type := None; Vehicles.brand := None;
     Vehicles.color := None; Vehicles.is_active := true |}.

(** The body [{"license_plate": p}] of a PUT to the vehicles *)
Definition replate (p : string) : Vehicles.VehicleUpdate :=
  {| Vehicles.set_license_plate := Given p; Vehicles.set_type := Unset;
     Vehicles.set_brand := Unset; Vehicles.set_color := Unset;
     Vehicles.set_is_active := Unset |}.

(** Vehicle 1 has the plate "ABC-1", vehicle 2 the plate "XYZ-2". *)
Definition two_vehicles : store :=
  (run Vehicles.router
     [Create (R := Vehicles.router) (vehicle "ABC-1") 1;
      Create (R := Vehicles.router) (vehicle "XYZ-2") 2] initial).1.

(** A vehicle is registered with the empty plate, a second one with the
    plate "ABC-1", and the plate of the second is then set to the empty
    string. *)
Definition empty_plate_twice : list (request Vehicles.router) :=
  [Create (R := Vehicles.router) (vehicle "") 1;
   Create (R := Vehicles.router) (vehicle "ABC-1") 2;
   Update (R := Vehicles.router) 2 (replate "") 3].

(** The row of station 1 after [{"name": "S1"}] was posted at time 1, and
    after [{"location": "Zone A"}] was put to it at time 2. *)
Definition station_1 : pydict :=
  {[ "id" := VInt 1; "created_at" := VTime 1; "updated_at" := VTime 1;
     "name" := VStr "S1"; "location" := VNone; "is_active" := VBool true ]}.

Definition station_1_moved : pydict :=
  {[ "id" := VInt 1; "created_at" := VTime 1; "updated_at" := VTime 2;
     "name" := VStr "S1"; "location" := VStr "Zone A"; "is_active" := VBool true ]}.

(** The row of sender 1 after [sender_a] was posted at time 1. *)
Definition sender_1 : pydict :=
  {[ "id" := VInt 1; "created_at" := VTime 1; "updated_at" := VTime 1;
     "name" := VStr "A"; "email" := VStr "a@x.com";
     "phone" := VNone; "address" := VNone; "is_active" := VBool true ]}.

End Samples.

(** A closed equation both sides of which evaluate to the same value. *)
Ltac by_evaluation :=
  lazymatch goal with
  | |- @eq ?A _ ?rhs => vm_cast_no_check (@eq_refl A rhs)
  end.

(** * Properties *)

(** ** The ordered dictionary *)

Section OrderedDictFacts.
Import OrderedDict.
Context {V : Type}.
Implicit Types (d : OrderedDict.t V) (k j : Z) (v : V).

Lemma get_set_eq k v d : get k (set k v d) = Some v.
Proof.
  induction d as [|[k' v'] d IH]; simpl.
  - by rewrite decide_True.
  - destruct (decide (k = k')); simpl.
    + by rewrite decide_True.
    + by rewrite decide_False.
Qed.

Lemma get_set_ne k j v d : k ≠ j → get j (set k v d) = get j d.
Proof.
  intros Hne. induction d as [|[k' v'] d IH]; simpl.
  - by rewrite decide_False.
  - destruct (decide (k = k')) as [->|]; simpl.
    + by rewrite !decide_False.
    + by rewrite IH.
Qed.

Lemma get_None k d : get k d = None ↔ k ∉ keys d.
Proof.
  unfold keys. induction d as [|[k' v'] d IH]; simpl.
  - split; [intros _; apply not_elem_of_nil | done].
  - rewrite not_elem_of_cons. destruct (decide (k = k')) as [->|Hne].
    + split; [done | by intros [? _]].
    + rewrite IH. split; [by intros ? | by intros [_ ?]].
Qed.

Lemma get_Some_elem k v d : get k d = Some v → (k, v) ∈ d.
Proof.
  induction d as [|[k' v'] d IH]; simpl; [done|].
  destruct (decide (k = k')) as [->|].
  - intros [= ->]. apply list_elem_of_here.
  - intros. apply list_elem_of_further; auto.
Qed.

Lemma get_Some_key k v d : get k d = Some v → k ∈ keys d.
Proof.
  intros H. destruct (decide (k ∈ keys d)) as [|Hn]; [done|].
  apply get_None in Hn. congruence.
Qed.

Lemma set_fresh k v d : get k d = None → set k v d = d ++ [(k, v)].
Proof.
  induction d as [|[k' v'] d IH]; simpl; [done|].
  destruct (decide (k = k')); [done|]. intros H. by rewrite IH.
Qed.

Lemma set_same k v d : get k d = Some v → set k v d = d.
Proof.
  induction d as [|[k' v'] d IH]; simpl; [done|].
  destruct (decide (k = k')) as [->|].
  - by intros [= ->].
  - intros H. by rewrite IH.
Qed.

Lemma keys_set_present k v d : is_Some (get k d) → keys (set k v d) = keys d.
Proof.
  unfold keys. induction d as [|[k' v'] d IH]; simpl.
  - by intros [? ?].
  - destruct (decide (k = k')) as [->|]; simpl; [done|].
    intros H. f_equal. by apply IH.
Qed.

Lemma Forall_set (P : Z * V → Prop) k v d :
  Forall P d → P (k, v) → Forall P (set k v d).
Proof.
  intros Hd Hk. induction Hd as [|[k' v'] d Hx Hd IH]; simpl.
  - by constructor.
  - destruct (decide (k = k')); constructor; auto.
Qed.

Lemma get_del_eq k d : get k (del k d) = None.
Proof.
  apply get_None. unfold keys, del. rewrite list_elem_of_fmap.
  intros [[k' v'] [-> [Hne _]%list_elem_of_filter]]. by apply Hne.
Qed.

Lemma get_del_ne k j d : k ≠ j → get j (del k d) = get j d.
Proof.
  intros Hne. unfold del. induction d as [|[k' v'] d IH]; [done|].
  rewrite filter_cons. simpl. destruct (decide (k' ≠ k)) as [Hk|Hk]; simpl.
  - by rewrite IH.
  - apply dec_stable in Hk. subst k'. by rewrite decide_False.
Qed.

Lemma keys_del_sublist k d : keys (del k d) `sublist_of` keys d.
Proof. unfold keys, del. apply fmap_sublist, sublist_filter. Qed.

Lemma del_sublist k d : del k d `sublist_of` d.
Proof. apply sublist_filter. Qed.

End OrderedDictFacts.

Lemma Forall_sublist {A} (P : A → Prop) (l1 l2 : list A) :
  l1 `sublist_of` l2 → Forall P l2 → Forall P l1.
Proof.
  intros Hsub. rewrite !Forall_forall. intros H x Hx.
  by apply H, (sublist_subseteq _ _ Hsub).
Qed.

Lemma StronglySorted_sublist {A} (R : relation A) (l1 l2 : list A) :
  l1 `sublist_of` l2 → StronglySorted R l2 → StronglySorted R l1.
Proof.
  induction 1 as [|x l1 l2 Hsub IH|x l1 l2 Hsub IH];
    rewrite ?StronglySorted_cons; [done| |by intros [_ ?]; apply IH].
  intros [Hx Hs]. split; [|by apply IH]. by eapply Forall_sublist.
Qed.

Lemma StronglySorted_snoc_lt (l : list Z) (x : Z) :
  StronglySorted Z.lt l → Forall (λ y, y < x) l → StronglySorted Z.lt (l ++ [x]).
Proof.
  intros Hs Hx. apply StronglySorted_app_2; [|done|repeat constructor].
  intros y z Hy ->%list_elem_of_singleton.
  by eapply Forall_forall in Hx.
Qed.

(** ** Slices and comprehensions *)

Lemma py_slice_nonneg {A} (skip limit : Z) (l : list A) :
  0 ≤ skip → 0 ≤ limit →
  py_slice skip (skip + limit) l = take (Z.to_nat limit) (drop (Z.to_nat skip) l).
Proof.
  intros Hs Hl. unfold py_slice, clamp_index.
  rewrite !(proj2 (Z.ltb_ge _ 0)) by lia.
  destruct (decide (Z.of_nat (length l) ≤ skip)) as [Hge|Hlt].
  - rewrite !drop_ge by lia. by rewrite !take_nil.
  - rewrite (Z.min_l skip) by lia.
    destruct (decide (skip + limit ≤ Z.of_nat (length l))).
    + rewrite Z.min_l by lia. f_equal. lia.
    + rewrite Z.min_r by lia. rewrite !take_ge; [done| |];
        rewrite length_drop; lia.
Qed.

Lemma py_slice_beyond {A} (skip limit : Z) (l : list A) :
  0 ≤ skip → 0 ≤ limit → Z.of_nat (length l) ≤ skip →
  py_slice skip (skip + limit) l = [].
Proof.
  intros. rewrite py_slice_nonneg by done. rewrite drop_ge by lia. apply take_nil.
Qed.

Lemma py_slice_sublist {A} (a b : Z) (l : list A) : py_slice a b l `sublist_of` l.
Proof. unfold py_slice. etrans; [apply sublist_take | apply sublist_drop]. Qed.

Section ConstructFacts.
Variable R : Router.

Lemma construct_cases row :
  construct R row = Ok row ∨ construct R row = ValidationError.
Proof. unfold construct. destruct (forallb _ _); auto. Qed.

Lemma construct_Ok row res : construct R row = Ok res → res = row.
Proof. unfold construct. destruct (forallb _ _); congruence. Qed.

Lemma construct_not_http row s d : construct R row ≠ HTTPException s d.
Proof. destruct (construct_cases row) as [-> | ->]; done. Qed.

Lemma map_construct_Ok rows res :
  map_outcome (construct R) rows = Ok res → res = rows.
Proof.
  revert res. induction rows as [|row rows IH]; simpl; intros res.
  - congruence.
  - destruct (construct R row) as [y| |] eqn:Hrow; try done.
    destruct (map_outcome _ rows) as [ys| |]; try done.
    intros [= <-]. f_equal; [by apply construct_Ok | by apply IH].
Qed.

Lemma map_construct_presentable rows :
  Forall (presentable R) rows → map_outcome (construct R) rows = Ok rows.
Proof.
  induction 1 as [|row rows Hrow _ IH]; simpl; [done|].
  by rewrite Hrow, IH.
Qed.

Lemma map_construct_not_http rows s d :
  map_outcome (construct R) rows ≠ HTTPException s d.
Proof.
  induction rows as [|row rows IH]; simpl; [done|].
  destruct (construct_cases row) as [-> | ->]; [|done].
  by destruct (map_outcome _ rows).
Qed.

End ConstructFacts.

(** ** What the handlers use of a router *)

(** The request models do not declare the three store-assigned fields, and
    the response model accepts every freshly created row. *)
Record well_formed (R : Router) : Prop := {
  dump_reserved : ∀ c k,
    k ∈ ["id"; "created_at"; "updated_at"] → model_dump R c !! k = None;
  dump_set_reserved : ∀ u k,
    k ∈ ["id"; "created_at"; "updated_at"] → model_dump_exclude_unset R u !! k = None;
  new_row_presentable : ∀ c id now, presentable R (new_row R c id now);
  (** The response model declares [updated_at: datetime] and
      [is_active: bool]. *)
  response_stamps : ∀ k a, (k, a) ∈ response_model R →
    (k = "updated_at" → a = TDatetime) ∧ (k = "is_active" → a = TBool);
  (** The key is a required [str] field of the create model, and none of
      the fields the handlers write themselves. *)
  key_is_field :
    unique_field R ∉ ["id"; "created_at"; "updated_at"; "is_active"];
  dump_has_key : ∀ c, ∃ s, model_dump R c !! unique_field R = Some (VStr s);
  (** [is_active: bool] is a field of the create model. *)
  dump_has_active : ∀ c, ∃ b, model_dump R c !! "is_active" = Some (VBool b)
}.

Lemma dump_field_lookup_ne {A} k k' (enc : A → value) (f : field A) :
  k ≠ k' → dump_field k enc f !! k' = None.
Proof. intros. destruct f; simpl; by simplify_map_eq. Qed.

Lemma reserved_cases (k : string) :
  k ∈ ["id"; "created_at"; "updated_at"] →
  k = "id" ∨ k = "created_at" ∨ k = "updated_at".
Proof. rewrite !elem_of_cons, elem_of_nil. tauto. Qed.

Lemma senders_well_formed : well_formed Senders.router.
Proof.
  split.
  - intros c k [-> | [-> | ->]]%reserved_cases; done.
  - intros u k Hk. simpl. unfold Senders.dump_set.
    rewrite !lookup_union_None, !dump_field_lookup_ne; [done|..];
      apply reserved_cases in Hk as [-> | [-> | ->]]; done.
  - intros [n e [p|] [a|] act] id now; reflexivity.
  - intros k a Hin. simpl in Hin. unfold Senders.Sender in Hin.
    repeat (apply elem_of_cons in Hin as [[= -> ->] | Hin]; [by split|]).
    by apply elem_of_nil in Hin.
  - simpl. rewrite !not_elem_of_cons. split_and!; done || apply not_elem_of_nil.
  - intros c. by exists (Senders.email c).
  - intros c. by exists (Senders.is_active c).
Qed.

Lemma delivery_staffs_well_formed : well_formed DeliveryStaffs.router.
Proof.
  split.
  - apply (dump_reserved _ senders_well_formed).
  - apply (dump_set_reserved _ senders_well_formed).
  - apply (new_row_presentable _ senders_well_formed).
  - apply (response_stamps _ senders_well_formed).
  - apply (key_is_field _ senders_well_formed).
  - apply (dump_has_key _ senders_well_formed).
  - apply (dump_has_active _ senders_well_formed).
Qed.

Lemma stations_well_formed : well_formed Stations.router.
Proof.
  split.
  - intros c k [-> | [-> | ->]]%reserved_cases; done.
  - intros u k Hk. simpl. unfold Stations.dump_set.
    rewrite !lookup_union_None, !dump_field_lookup_ne; [done|..];
      apply reserved_cases in Hk as [-> | [-> | ->]]; done.
  - intros [n [l|] act] id now; reflexivity.
  - intros k a Hin. simpl in Hin. unfold Stations.Station in Hin.
    repeat (apply elem_of_cons in Hin as [[= -> ->] | Hin]; [by split|]).
    by apply elem_of_nil in Hin.
  - simpl. rewrite !not_elem_of_cons. split_and!; done || apply not_elem_of_nil.
  - intros c. by exists (Stations.name c).
  - intros c. by exists (Stations.is_active c).
Qed.

Lemma vehicles_well_formed : well_formed Vehicles.router.
Proof.
  split.
  - intros c k [-> | [-> | ->]]%reserved_cases; done.
  - intros u k Hk. simpl. unfold Vehicles.dump_set.
    rewrite !lookup_union_None, !dump_field_lookup_ne; [done|..];
      apply reserved_cases in Hk as [-> | [-> | ->]]; done.
  - intros [p [t|] [b|] [c|] act] id now; reflexivity.
  - intros k a Hin. simpl in Hin. unfold Vehicles.Vehicle in Hin.
    repeat (apply elem_of_cons in Hin as [[= -> ->] | Hin]; [by split|]).
    by apply elem_of_nil in Hin.
  - simpl. rewrite !not_elem_of_cons. split_and!; done || apply not_elem_of_nil.
  - intros c. by exists (Vehicles.license_plate c).
  - intros c. by exists (Vehicles.is_active c).
Qed.

Lemma router_of_well_formed (c : collection) : well_formed (router_of c).
Proof.
  destruct c; [apply senders_well_formed | apply delivery_staffs_well_formed
              | apply stations_well_formed | apply vehicles_well_formed].
Qed.

(** ** The handlers, case by case *)

Section HandlerFacts.
Import OrderedDict.
Variable R : Router.
Hypothesis HR : well_formed R.

Lemma create_duplicate c now st :
  key_taken R c st = true →
  create R c now st = (st, HTTPException 400 (duplicate_detail R)).
Proof. unfold create. by intros ->. Qed.

Lemma create_fresh c now st :
  key_taken R c st = false →
  create R c now st =
    ({| db := set (next_id st) (new_row R c (next_id st) now) (db st);
        next_id := next_id st + 1 |},
     Ok (new_row R c (next_id st) now)).
Proof.
  unfold create. intros ->.
  by rewrite (new_row_presentable _ HR).
Qed.

Lemma new_row_reserved c id now :
  new_row R c id now !! "id" = Some (VInt id) ∧
  new_row R c id now !! "created_at" = Some (VTime now) ∧
  new_row R c id now !! "updated_at" = Some (VTime now).
Proof.
  unfold new_row. repeat split;
    (rewrite lookup_union_r; [done | apply (dump_reserved _ HR)]);
    rewrite !elem_of_cons; auto.
Qed.

Lemma new_row_field c id now k :
  k ∉ ["id"; "created_at"; "updated_at"] →
  new_row R c id now !! k = model_dump R c !! k.
Proof.
  rewrite !not_elem_of_cons. intros (? & ? & ? & _). unfold new_row.
  destruct (model_dump R c !! k) as [v|] eqn:Hk.
  - by rewrite (lookup_union_Some_l _ _ _ _ Hk).
  - rewrite lookup_union_r by done. by simplify_map_eq.
Qed.

Lemma ordered_initial : ordered initial.
Proof. split; simpl; [lia | constructor..]. Qed.

Lemma ordered_get_None st : ordered st → get (next_id st) (db st) = None.
Proof.
  intros [_ _ Hb _]. apply get_None. intros Hin.
  eapply Forall_forall in Hb; [|done]. simpl in Hb. lia.
Qed.

Lemma ordered_get_id st id row :
  ordered st → get id (db st) = Some row → row !! "id" = Some (VInt id).
Proof.
  intros [_ _ _ Hi] Hrow%get_Some_elem.
  by eapply Forall_forall in Hi; [|done].
Qed.

Lemma ordered_replace st id old row :
  ordered st → get id (db st) = Some old → row !! "id" = Some (VInt id) →
  ordered {| db := set id row (db st); next_id := next_id st |}.
Proof.
  intros [Hc Hs Hb Hi] Hold Hrow. split; simpl.
  - done.
  - by rewrite keys_set_present.
  - by rewrite keys_set_present.
  - by apply Forall_set.
Qed.

Lemma ordered_create c now st : ordered st → ordered (create R c now st).1.
Proof.
  intros Ho. destruct (key_taken R c st) eqn:Hk.
  - by rewrite create_duplicate.
  - rewrite create_fresh by done. simpl.
    pose proof (ordered_get_None _ Ho) as Hnone.
    destruct Ho as [Hc Hs Hb Hi]. rewrite (set_fresh _ _ _ Hnone).
    split; simpl; unfold keys.
    + lia.
    + rewrite fmap_app. apply StronglySorted_snoc_lt; [done|].
      eapply Forall_impl; [exact Hb|]. simpl. lia.
    + rewrite fmap_app, Forall_app. split.
      * eapply Forall_impl; [exact Hb|]. simpl. lia.
      * repeat constructor; simpl; lia.
    + rewrite Forall_app. split; [done|]. repeat constructor. simpl.
      apply new_row_reserved.
Qed.

Lemma ordered_update id u now st : ordered st → ordered (update R id u now st).1.
Proof.
  intros Ho. unfold update.
  destruct (get id (db st)) as [existing|] eqn:Hget; [|done].
  destruct (truthy _ && _); [done|].
  case_bool_decide; [done|]. simpl.
  eapply ordered_replace; [done..|].
  rewrite lookup_insert_ne by done.
  rewrite lookup_union_r by (apply (dump_set_reserved _ HR); set_solver).
  by eapply ordered_get_id.
Qed.

Lemma ordered_delete id st : ordered st → ordered (delete R id st).1.
Proof.
  intros Ho. unfold delete. destruct (get id (db st)); [|done]. simpl.
  destruct Ho as [Hc Hs Hb Hi]. split; simpl.
  - done.
  - eapply StronglySorted_sublist; [apply keys_del_sublist | done].
  - eapply Forall_sublist; [apply keys_del_sublist | done].
  - eapply Forall_sublist; [apply del_sublist | done].
Qed.

Lemma ordered_set_active b id now st :
  ordered st → ordered (set_active R b id now st).1.
Proof.
  intros Ho. unfold set_active.
  destruct (get id (db st)) as [row|] eqn:Hget; [|done]. simpl.
  eapply ordered_replace; [done..|].
  rewrite !lookup_insert_ne by done. by eapply ordered_get_id.
Qed.

Lemma ordered_handle q st : ordered st → ordered (handle R q st).1.
Proof.
  destruct q; simpl.
  - apply ordered_create.
  - apply ordered_update.
  - apply ordered_update.
  - apply ordered_delete.
  - apply ordered_set_active.
  - apply ordered_set_active.
Qed.

Lemma ordered_run qs st : ordered st → ordered (run R qs st).1.
Proof.
  revert st. induction qs as [|q qs IH]; intros st Ho; simpl; [done|].
  by apply IH, ordered_handle.
Qed.

End HandlerFacts.

(** ** The counter *)

Section Counter.
Import OrderedDict.
Variable R : Router.
Hypothesis HR : well_formed R.

(** A call either is a successful POST, which hands out the counter and
    advances it by one, or hands out nothing and leaves the counter. *)
Lemma handle_counter (q : request R) st :
  (assigned_id q (handle R q st).2 = Some (VInt (next_id st)) ∧
   next_id (handle R q st).1 = next_id st + 1) ∨
  (assigned_id q (handle R q st).2 = None ∧
   next_id (handle R q st).1 = next_id st).
Proof.
  destruct q as [c now|id u now|id u now|id|id now|id now]; simpl.
  - destruct (key_taken R c st) eqn:Hk.
    + right. by rewrite create_duplicate.
    + left. rewrite create_fresh by done. simpl. split; [|done].
      by apply new_row_reserved.
  - right. split; [done|].
    unfold update. destruct (get id (db st)); [|done].
    destruct (truthy _ && _); [done|]. by case_bool_decide.
  - right. split; [done|].
    unfold patch, update. destruct (get id (db st)); [|done].
    destruct (truthy _ && _); [done|]. by case_bool_decide.
  - right. split; [done|].
    unfold delete. by destruct (get id (db st)).
  - right. split; [done|].
    unfold activate, set_active. by destruct (get id (db st)).
  - right. split; [done|].
    unfold deactivate, set_active. by destruct (get id (db st)).
Qed.

Lemma assigned_ids_from qs st :
  next_id st ≤ next_id (run R qs st).1 ∧
  assigned_ids R qs st =
    VInt <$> seqZ (next_id st) (next_id (run R qs st).1 - next_id st).
Proof.
  revert st. induction qs as [|q qs IH]; intros st; simpl.
  - split; [lia|]. by rewrite Z.sub_diag.
  - destruct (IH (handle R q st).1) as [Hle Hids].
    destruct (handle_counter q st) as [[-> Hn] | [-> Hn]];
      rewrite Hn in Hle, Hids; rewrite Hids.
    + split; [lia|]. rewrite (seqZ_cons (next_id st)) by lia.
      rewrite fmap_cons. do 3 f_equal; lia.
    + split; [lia|]. done.
Qed.

End Counter.

Lemma run_app (R : Router) (qs qs' : list (request R)) (st : store) :
  (run R (qs ++ qs') st).1 = (run R qs' (run R qs st).1).1.
Proof.
  revert st. induction qs as [|q qs IH]; intros st; simpl; [done|]. apply IH.
Qed.

Lemma assigned_ids_app (R : Router) (qs qs' : list (request R)) (st : store) :
  assigned_ids R (qs ++ qs') st
    = assigned_ids R qs st ++ assigned_ids R qs' (run R qs st).1.
Proof.
  revert st. induction qs as [|q qs IH]; intros st; simpl; [done|].
  rewrite IH. by destruct (assigned_id q _).
Qed.

(** C2.  In each collection, take any sequence of calls on the empty store
    and let [n] be the number of ids its POSTs have returned.  These ids
    are 1, 2, ..., [n] in this order (positive and strictly increasing),
    the counter stands at [n + 1], and every stored id lies between 1 and
    [n].  A further POST that passes the duplicate check is answered with a
    record whose id is [n + 1] and stores it under that id: a new number,
    above every id handed out before, whatever was deleted in between.  A
    further POST that is refused hands out nothing and leaves the counter. *)
Theorem assigned_ids_count_up (c : collection) (qs : list (request (router_of c)))
    (m : CreateModel (router_of c)) (now : Z) :
  let st := (run (router_of c) qs initial).1 in
  let ids := assigned_ids (router_of c) qs initial in
  let n := Z.of_nat (length ids) in
  ids = VInt <$> seqZ 1 n ∧
  next_id st = n + 1 ∧
  Forall (λ k, 0 < k ≤ n) (OrderedDict.keys (db st)) ∧
  (key_taken (router_of c) m st = false →
   ∃ row,
     (create (router_of c) m now st).2 = Ok row ∧
     row !! "id" = Some (VInt (n + 1)) ∧
     OrderedDict.get (n + 1) (db (create (router_of c) m now st).1) = Some row ∧
     assigned_ids (router_of c) (qs ++ [Create m now]) initial
       = ids ++ [VInt (n + 1)]) ∧
  (key_taken (router_of c) m st = true →
   (∃ d, (create (router_of c) m now st).2 = HTTPException 400 d) ∧
   assigned_ids (router_of c) (qs ++ [Create m now]) initial = ids ∧
   next_id (create (router_of c) m now st).1 = n + 1).
Proof.
  intros st ids n. pose proof (router_of_well_formed c) as HR.
  destruct (assigned_ids_from _ HR qs initial) as [Hle Hids].
  fold st in Hle, Hids. fold ids in Hids. simpl in Hle, Hids.
  assert (next_id st = n + 1) as Hnext.
  { subst n. rewrite Hids, length_fmap, length_seqZ. lia. }
  assert (ordered st) as Ho by (by apply ordered_run, ordered_initial).
  split_and!.
  - rewrite Hids. do 2 f_equal. lia.
  - done.
  - destruct Ho as [_ _ Hb _]. eapply Forall_impl; [exact Hb|]. simpl. lia.
  - intros Hk. exists (new_row (router_of c) m (next_id st) now).
    rewrite assigned_ids_app. fold st. fold ids. simpl.
    rewrite create_fresh by done. simpl. rewrite <-Hnext.
    destruct (new_row_reserved _ HR m (next_id st) now) as (Hid & _).
    rewrite Hid. split_and!; [done | done | apply get_set_eq | done].
  - intros Hk. rewrite assigned_ids_app. fold st. fold ids. simpl.
    rewrite create_duplicate by done. simpl.
    split_and!; [by eexists | by rewrite app_nil_r | done].
Qed.

(** ** PUT and PATCH *)

Section UpdateFacts.
Import OrderedDict.
Variable R : Router.
Hypothesis HR : well_formed R.

Lemma taken_by_other_elem id key d :
  taken_by_other R id key d = true →
  ∃ j other, (j, other) ∈ d ∧ j ≠ id ∧ other !! unique_field R = Some key.
Proof.
  unfold taken_by_other, items. intros Hex.
  apply existsb_exists in Hex as ([j other] & Hin & Hj).
  apply andb_prop in Hj as [Hj Hk]. simpl in *.
  apply bool_decide_eq_true in Hj, Hk.
  exists j, other. by rewrite list_elem_of_In.
Qed.

(** The three ways out of [update_sender] before anything is written. *)
Lemma update_not_found id u now st :
  get id (db st) = None →
  update R id u now st = (st, HTTPException 404 (not_found_detail R)).
Proof. unfold update. by intros ->. Qed.

Lemma update_nothing id u now st existing :
  get id (db st) = Some existing →
  model_dump_exclude_unset R u = ∅ →
  update R id u now st = (st, construct R existing).
Proof.
  unfold update. intros -> ->. unfold getattr. rewrite lookup_empty. simpl.
  by rewrite bool_decide_eq_true_2.
Qed.

(** The way through: the fields are merged, the clock is read, the row is
    written back, and only then the response model is built. *)
Lemma update_written id u now st existing :
  get id (db st) = Some existing →
  (update R id u now st).2 ≠ HTTPException 400 (duplicate_detail R) →
  model_dump_exclude_unset R u ≠ ∅ →
  let row := <[ "updated_at" := VTime now ]> (model_dump_exclude_unset R u ∪ existing) in
  update R id u now st =
    ({| db := set id row (db st); next_id := next_id st |}, construct R row).
Proof.
  unfold update. intros -> Hnot Hne.
  destruct (truthy _ && _); [done|].
  by rewrite bool_decide_eq_false_2.
Qed.

Lemma update_http id u now st s d :
  (update R id u now st).2 = HTTPException s d → (update R id u now st).1 = st.
Proof.
  unfold update. destruct (get id (db st)) as [existing|]; [|done].
  destruct (truthy _ && _); [done|].
  case_bool_decide; [done|]. simpl. intros Hc.
  by apply construct_not_http in Hc.
Qed.

End UpdateFacts.

(** C3.  In each collection, when a PUT is answered with the 400 of the
    duplicate check, some other stored row holds the key that was sent, and
    the state after the call is the state before it: no row was changed
    (no field applied, [updated_at] not refreshed), none added or removed,
    and the counter stands. *)
Theorem update_conflict_changes_nothing (c : collection) (id : Z)
    (u : UpdateModel (router_of c)) (now : Z) (st : store) :
  (update (router_of c) id u now st).2
    = HTTPException 400 (duplicate_detail (router_of c)) →
  (update (router_of c) id u now st).1 = st ∧
  ∃ j other,
    (j, other) ∈ db st ∧ j ≠ id ∧
    other !! unique_field (router_of c)
      = Some (getattr (model_dump_exclude_unset (router_of c) u)
                      (unique_field (router_of c))).
Proof.
  intros H. split; [by eapply update_http|].
  revert H. unfold update.
  destruct (OrderedDict.get id (db st)) as [existing|].
  2: by intros [=].
  destruct (truthy _ && taken_by_other _ _ _ _) eqn:Hcheck.
  - intros _. apply andb_prop in Hcheck as [_ Htaken].
    by apply taken_by_other_elem.
  - case_bool_decide; simpl; intros Hc; by apply construct_not_http in Hc.
Qed.

(** C4.  In each collection, let a PUT carry the single field [f] with the
    value [v] and be answered with a record.  Then the stored row is the
    returned record, its [f] is [v], its [updated_at] is the time of the
    call, every other field (among them [id] and [created_at]) is as it was
    before the call, and so is every other row and the counter. *)
Theorem update_single_field_frame (c : collection) (id : Z)
    (u : UpdateModel (router_of c)) (now : Z) (st : store)
    (row res : pydict) (f : string) (v : value) :
  OrderedDict.get id (db st) = Some row →
  model_dump_exclude_unset (router_of c) u = {[ f := v ]} →
  (update (router_of c) id u now st).2 = Ok res →
  let st' := (update (router_of c) id u now st).1 in
  OrderedDict.get id (db st') = Some res ∧
  res !! f = Some v ∧
  res !! "updated_at" = Some (VTime now) ∧
  (∀ g, g ≠ f → g ≠ "updated_at" → res !! g = row !! g) ∧
  res !! "id" = row !! "id" ∧
  res !! "created_at" = row !! "created_at" ∧
  (∀ j, j ≠ id → OrderedDict.get j (db st') = OrderedDict.get j (db st)) ∧
  next_id st' = next_id st.
Proof.
  intros Hrow Hdump Hres st'. subst st'.
  pose proof (router_of_well_formed c) as HR.
  assert (∀ k, k ∈ ["id"; "created_at"; "updated_at"] → f ≠ k) as Hf.
  { intros k Hk ->. apply (dump_set_reserved _ HR u) in Hk.
    rewrite Hdump, lookup_singleton_eq in Hk. discriminate. }
  assert (model_dump_exclude_unset (router_of c) u ≠ ∅) as Hne.
  { rewrite Hdump. apply insert_non_empty. }
  assert ((update (router_of c) id u now st).2
          ≠ HTTPException 400 (duplicate_detail (router_of c))) as Hnot
    by (by rewrite Hres).
  pose proof (update_written _ id u now st row Hrow Hnot Hne) as Heq.
  simpl in Heq. rewrite Heq in Hres |- *. clear Heq Hnot.
  simpl in *. apply construct_Ok in Hres. subst res. rewrite Hdump.
  assert (f ≠ "updated_at") by (apply Hf; set_solver).
  assert (∀ g, g ≠ f → g ≠ "updated_at" →
    <[ "updated_at" := VTime now ]> ({[ f := v ]} ∪ row) !! g = row !! g) as Hg.
  { intros g ? ?. rewrite lookup_insert_ne by done.
    rewrite lookup_union_r; [done|]. by rewrite lookup_singleton_ne. }
  split_and!.
  - apply get_set_eq.
  - rewrite lookup_insert_ne by done.
    apply lookup_union_Some_l, lookup_singleton_eq.
  - apply lookup_insert_eq.
  - exact Hg.
  - apply Hg; [apply not_eq_sym, Hf; set_solver | done].
  - apply Hg; [apply not_eq_sym, Hf; set_solver | done].
  - intros j Hj. by apply get_set_ne.
  - done.
Qed.

(** ** POST *)

Lemma key_taken_elem (R : Router) (m : CreateModel R) (st : store) :
  key_taken R m st = true ↔
  ∃ row, row ∈ OrderedDict.values (db st) ∧
         row !! unique_field R = Some (getattr (model_dump R m) (unique_field R)).
Proof.
  unfold key_taken. rewrite existsb_exists. split.
  - intros (row & Hin & Hk). exists row.
    by rewrite list_elem_of_In, <-(bool_decide_eq_true _).
  - intros (row & Hin & Hk). exists row.
    by rewrite <-list_elem_of_In, bool_decide_eq_true.
Qed.

(** C5, as the code has it.  In each collection, a POST whose key is the
    key of a stored row is answered with a 400 and leaves the state as it
    was: no row is added and the counter is not advanced.  The detail of the
    400 is the fixed message of the router, which tells the field and does
    not depend on the value that was sent. *)
Theorem create_duplicate_rejected (c : collection)
    (m : CreateModel (router_of c)) (now : Z) (st : store) (row : pydict) :
  row ∈ OrderedDict.values (db st) →
  row !! unique_field (router_of c)
    = Some (getattr (model_dump (router_of c) m) (unique_field (router_of c))) →
  create (router_of c) m now st
    = (st, HTTPException 400 (duplicate_detail (router_of c))) ∧
  duplicate_detail (router_of c) =
    match c with
    | senders | delivery_staffs => "Email already registered"
    | stations => "Station name already exists"
    | vehicles => "License plate already exists"
    end.
Proof.
  intros Hin Hk. split; [|by destruct c].
  apply create_duplicate, key_taken_elem. eauto.
Qed.

(** ** GET on the collection *)

Lemma get_all_unfold (R : Router) skip limit f st :
  get_all R skip limit f st =
    map_outcome (construct R) (py_slice skip (skip + limit) (matching f st)).
Proof. by destruct f. Qed.

Lemma matching_sublist f st : matching f st `sublist_of` OrderedDict.values (db st).
Proof. destruct f; simpl; [apply sublist_filter | done]. Qed.

Lemma record_id_keys st :
  ordered st → record_id <$> OrderedDict.values (db st) = OrderedDict.keys (db st).
Proof.
  intros [_ _ _ Hi]. unfold OrderedDict.values, OrderedDict.keys.
  induction Hi as [|[k row] d Hk _ IH]; [done|].
  rewrite !fmap_cons. simpl in *. f_equal; [|done].
  unfold record_id. by rewrite Hk.
Qed.

(** C6, as the code has it.  In each collection the listing is the page cut
    out of the selected rows by Python's slice from [skip] to
    [skip + limit], with every row of the page turned into the response
    model.  [skip] and [limit] are not checked: no value of them, negative
    or not, is answered with an [HTTPException].  When neither is negative
    and [skip] is at least the number of selected rows (as always on an
    empty store), the answer is the empty list.  When the response model
    accepts every stored row, the answer is the page. *)
Theorem get_all_takes_any_bounds (c : collection) (skip limit : Z)
    (f : option bool) (st : store) :
  let page := py_slice skip (skip + limit) (matching f st) in
  get_all (router_of c) skip limit f st
    = map_outcome (construct (router_of c)) page ∧
  (∀ s d, get_all (router_of c) skip limit f st ≠ HTTPException s d) ∧
  (0 ≤ skip → 0 ≤ limit → Z.of_nat (length (matching f st)) ≤ skip →
   get_all (router_of c) skip limit f st = Ok []) ∧
  (Forall (presentable (router_of c)) (OrderedDict.values (db st)) →
   get_all (router_of c) skip limit f st = Ok page).
Proof.
  intros page. subst page. rewrite get_all_unfold. split_and!.
  - done.
  - intros s d. apply map_construct_not_http.
  - intros. by rewrite py_slice_beyond.
  - intros Hall. apply map_construct_presentable.
    eapply Forall_sublist; [|exact Hall].
    etrans; [apply py_slice_sublist | apply matching_sublist].
Qed.

(** C7.  In each collection, after any sequence of calls on the empty
    store, the rows stand in the store in ascending order of their ids
    (the order in which they were inserted).  For [skip] and [limit] that
    are not negative, the listing turns into response models the rows of
    [page]: the rows of the whole store that pass the [is_active] filter,
    in that order, without the first [skip] of them and cut after [limit].
    The ids of the page ascend, whatever is returned is the page, and the
    page is returned when the response model accepts its rows. *)
Theorem listing_is_page_in_id_order (c : collection)
    (qs : list (request (router_of c))) (skip limit : Z) (f : option bool) :
  0 ≤ skip → 0 ≤ limit →
  let st := (run (router_of c) qs initial).1 in
  let page := take (Z.to_nat limit) (drop (Z.to_nat skip) (matching f st)) in
  StronglySorted Z.lt (OrderedDict.keys (db st)) ∧
  record_id <$> OrderedDict.values (db st) = OrderedDict.keys (db st) ∧
  get_all (router_of c) skip limit f st
    = map_outcome (construct (router_of c)) page ∧
  StronglySorted Z.lt (record_id <$> page) ∧
  (∀ rows, get_all (router_of c) skip limit f st = Ok rows → rows = page) ∧
  (Forall (presentable (router_of c)) page →
   get_all (router_of c) skip limit f st = Ok page).
Proof.
  intros Hskip Hlimit st page.
  assert (ordered st) as Ho
    by (apply ordered_run; [apply router_of_well_formed | apply ordered_initial]).
  assert (get_all (router_of c) skip limit f st
          = map_outcome (construct (router_of c)) page) as Hget.
  { rewrite get_all_unfold. by rewrite py_slice_nonneg. }
  split_and!.
  - apply Ho.
  - by apply record_id_keys.
  - exact Hget.
  - eapply StronglySorted_sublist; [|apply Ho].
    rewrite <-(record_id_keys st Ho). apply fmap_sublist.
    subst page. etrans; [apply sublist_take|].
    etrans; [apply sublist_drop | apply matching_sublist].
  - intros rows. rewrite Hget. apply map_construct_Ok.
  - intros Hall. rewrite Hget. by apply map_construct_presentable.
Qed.

(** The row a POST stores, in each collection: the counter, the time of the
    call twice, and under every other name what the request model holds. *)
Lemma create_stores_new_row (R : Router) (m : CreateModel R) (now : Z) (st : store) :
  well_formed R → key_taken R m st = false →
  let row := new_row R m (next_id st) now in
  (create R m now st).2 = Ok row ∧
  OrderedDict.get (next_id st) (db (create R m now st).1) = Some row ∧
  next_id (create R m now st).1 = next_id st + 1.
Proof.
  intros HR Hk row. rewrite create_fresh by done. simpl.
  split_and!; [done | apply get_set_eq | done].
Qed.

Lemma dump_is_active (c : collection) (m : CreateModel (router_of c)) :
  model_dump (router_of c) m !! "is_active" = Some (VBool (create_is_active c m)).
Proof. by destruct c. Qed.

(** C8, as the code has it.  In each collection, a POST that passes the
    duplicate check stores and returns the same record.  Its [id] is the
    counter of the store, and its [created_at] and [updated_at] are both
    the time of the call; the create model has no field of these names, so
    the caller cannot set them.  Its [is_active] is the [is_active] of the
    create model, and so is every other field the value the model holds.
    The create models take [is_active] from the request body and set it to
    [True] when the body leaves it out. *)
Theorem create_record (c : collection) (m : CreateModel (router_of c))
    (now : Z) (st : store) :
  key_taken (router_of c) m st = false →
  (∃ row,
     (create (router_of c) m now st).2 = Ok row ∧
     OrderedDict.get (next_id st) (db (create (router_of c) m now st).1) = Some row ∧
     row !! "id" = Some (VInt (next_id st)) ∧
     row !! "created_at" = Some (VTime now) ∧
     row !! "updated_at" = Some (VTime now) ∧
     row !! "is_active" = Some (VBool (create_is_active c m)) ∧
     (∀ k, k ∉ ["id"; "created_at"; "updated_at"] →
           row !! k = model_dump (router_of c) m !! k)) ∧
  (∀ k, k ∈ ["id"; "created_at"; "updated_at"] →
        model_dump (router_of c) m !! k = None) ∧
  (∀ name email phone address given,
     Senders.is_active (Senders.SenderCreate_init name email phone address given)
     = default true given) ∧
  (∀ name location given,
     Stations.is_active (Stations.StationCreate_init name location given)
     = default true given) ∧
  (∀ license_plate type brand color given,
     Vehicles.is_active
       (Vehicles.VehicleCreate_init license_plate type brand color given)
     = default true given).
Proof.
  intros Hk. pose proof (router_of_well_formed c) as HR.
  split_and!; [|apply (dump_reserved _ HR)|done..].
  exists (new_row (router_of c) m (next_id st) now).
  destruct (create_stores_new_row (router_of c) m now st HR Hk) as (Hres & Hget & _).
  destruct (new_row_reserved _ HR m (next_id st) now) as (Hid & Hc & Hu).
  split_and!; [done..| |].
  - rewrite new_row_field; [apply dump_is_active|].
    rewrite !not_elem_of_cons. split_and!; done || apply not_elem_of_nil.
  - intros k Hnot. by apply new_row_field.
Qed.

(** ** Rows the response model accepts *)

Section Presentable.
Import OrderedDict.
Variable R : Router.
Hypothesis HR : well_formed R.

Lemma presentable_fields row :
  presentable R row ↔
  ∀ k a, (k, a) ∈ response_model R → validates a (row !! k) = true.
Proof.
  unfold presentable, construct. split.
  - destruct (forallb _ _) eqn:Hall; [|done]. intros _ k a Hin.
    rewrite forallb_forall in Hall.
    by apply (Hall (k, a)), list_elem_of_In.
  - intros Hall. rewrite (proj2 (forallb_forall _ _)); [done|].
    intros [k a] Hin. by apply Hall, list_elem_of_In.
Qed.

(** The two assignments of the activation handlers keep an accepted row
    accepted. *)
Lemma presentable_set_active row b now :
  presentable R row →
  presentable R (<[ "updated_at" := VTime now ]> (<[ "is_active" := VBool b ]> row)).
Proof.
  rewrite !presentable_fields. intros Hrow k a Hin.
  destruct (response_stamps _ HR k a Hin) as [Hu Ha].
  destruct (decide (k = "updated_at")) as [->|].
  { rewrite lookup_insert_eq. by rewrite Hu. }
  rewrite lookup_insert_ne by done.
  destruct (decide (k = "is_active")) as [->|].
  { rewrite lookup_insert_eq. by rewrite Ha. }
  rewrite lookup_insert_ne by done. by apply Hrow.
Qed.

Lemma set_active_present b id now st row :
  get id (db st) = Some row →
  let row' := <[ "updated_at" := VTime now ]> (<[ "is_active" := VBool b ]> row) in
  set_active R b id now st =
    ({| db := set id row' (db st); next_id := next_id st |}, construct R row').
Proof. unfold set_active. by intros ->. Qed.

(** On a row the response model accepts, POST .../activate (with [b] true)
    and POST .../deactivate (with [b] false) called twice are answered with
    a record both times; each time the record has [is_active = b] and the
    time of the call as [updated_at], and is the row otherwise. *)
Lemma activation_twice_presentable b id now1 now2 st row :
  get id (db st) = Some row → presentable R row →
  let r1 := set_active R b id now1 st in
  let r2 := set_active R b id now2 r1.1 in
  let row1 := <[ "updated_at" := VTime now1 ]> (<[ "is_active" := VBool b ]> row) in
  let row2 := <[ "updated_at" := VTime now2 ]> (<[ "is_active" := VBool b ]> row) in
  r1.2 = Ok row1 ∧ get id (db r1.1) = Some row1 ∧
  r2.2 = Ok row2 ∧ get id (db r2.1) = Some row2 ∧
  (∀ j, j ≠ id → get j (db r2.1) = get j (db st)) ∧
  (∀ k, k ≠ "is_active" → k ≠ "updated_at" → row2 !! k = row !! k).
Proof.
  intros Hget Hrow r1 r2 row1 row2.
  assert (r1 = ({| db := set id row1 (db st); next_id := next_id st |}, Ok row1)) as H1.
  { subst r1. rewrite (set_active_present b id now1 st row Hget).
    by rewrite (presentable_set_active row b now1 Hrow). }
  assert (get id (db r1.1) = Some row1) as Hget1
    by (rewrite H1; apply get_set_eq).
  assert (<[ "updated_at" := VTime now2 ]> (<[ "is_active" := VBool b ]> row1) = row2) as Hrow2.
  { subst row1 row2. apply map_eq. intros k.
    destruct (decide (k = "updated_at")) as [->|]; [by rewrite !lookup_insert_eq|].
    rewrite !(lookup_insert_ne _ "updated_at") by done.
    destruct (decide (k = "is_active")) as [->|]; [by rewrite !lookup_insert_eq|].
    by rewrite !lookup_insert_ne by done. }
  assert (r2 = ({| db := set id row2 (db r1.1); next_id := next_id r1.1 |}, Ok row2)) as H2.
  { subst r2. rewrite (set_active_present b id now2 r1.1 row1 Hget1). simpl.
    pose proof (presentable_set_active row b now2 Hrow) as Hp2.
    change (construct R row2 = Ok row2) in Hp2. by rewrite Hrow2, Hp2. }
  split_and!.
  - by rewrite H1.
  - done.
  - by rewrite H2.
  - rewrite H2. apply get_set_eq.
  - intros j Hj. rewrite H2, H1. simpl. by rewrite !get_set_ne.
  - intros k ? ?. subst row2. by rewrite !lookup_insert_ne.
Qed.

(** On a row the response model accepts, the PUT [{}] returns the row and
    leaves the store as it is. *)
Lemma update_nothing_presentable id u now st row :
  get id (db st) = Some row → presentable R row →
  model_dump_exclude_unset R u = ∅ →
  update R id u now st = (st, Ok row).
Proof.
  intros Hget Hrow Hu. rewrite (update_nothing R id u now st row Hget Hu).
  by rewrite Hrow.
Qed.

End Presentable.

(** ** Where the keys stay unique *)

Section Uniqueness.
Import OrderedDict.
Variable R : Router.
Hypothesis HR : well_formed R.

Lemma get_Some_value id (row : pydict) d : get id d = Some row → row ∈ values d.
Proof.
  intros Hin%get_Some_elem. unfold values.
  apply list_elem_of_fmap. by exists (id, row).
Qed.

Lemma key_not_written :
  unique_field R ≠ "id" ∧ unique_field R ≠ "created_at" ∧
  unique_field R ≠ "updated_at" ∧ unique_field R ≠ "is_active".
Proof.
  pose proof (key_is_field _ HR) as Hkey.
  rewrite !not_elem_of_cons in Hkey. tauto.
Qed.

Lemma unique_keys_replace st id old row :
  unique_keys R st → get id (db st) = Some old →
  (∀ j other, j ≠ id → get j (db st) = Some other →
              other !! unique_field R ≠ row !! unique_field R) →
  unique_keys R {| db := set id row (db st); next_id := next_id st |}.
Proof.
  intros Hu Hold Hrow i j ri rj. simpl.
  destruct (decide (i = id)) as [->|Hi], (decide (j = id)) as [->|Hj].
  - done.
  - rewrite get_set_eq, get_set_ne by done. intros [= <-] Hgj _.
    apply not_eq_sym. by eapply Hrow.
  - rewrite get_set_eq, get_set_ne by done. intros Hgi [= <-] _.
    by eapply Hrow.
  - rewrite !get_set_ne by done. apply Hu.
Qed.

(** POST keeps the keys unique. *)
Lemma unique_keys_create m now st :
  ordered st → unique_keys R st → unique_keys R (create R m now st).1.
Proof.
  intros Ho Hu. destruct (key_taken R m st) eqn:Hk.
  { by rewrite create_duplicate. }
  rewrite create_fresh by done. simpl.
  pose proof (ordered_get_None st Ho) as Hnone.
  destruct (dump_has_key _ HR m) as [s Hs].
  assert (new_row R m (next_id st) now !! unique_field R = Some (VStr s)) as Hnew.
  { rewrite new_row_field; [done|].
    destruct key_not_written as (? & ? & ? & _).
    rewrite !not_elem_of_cons. split_and!; done || apply not_elem_of_nil. }
  assert (∀ j other, get j (db st) = Some other →
            other !! unique_field R ≠ Some (VStr s)) as Hfree.
  { intros j other Hj Heq.
    assert (key_taken R m st = true) as Ht; [|congruence].
    apply key_taken_elem. exists other. split; [by eapply get_Some_value|].
    unfold getattr. by rewrite Hs. }
  intros i j ri rj. simpl.
  destruct (decide (i = next_id st)) as [->|Hi],
           (decide (j = next_id st)) as [->|Hj].
  - done.
  - rewrite get_set_eq, get_set_ne by done. intros [= <-] Hgj _.
    rewrite Hnew. apply not_eq_sym. by eapply Hfree.
  - rewrite get_set_eq, get_set_ne by done. intros Hgi [= <-] _.
    rewrite Hnew. by eapply Hfree.
  - rewrite !get_set_ne by done. apply Hu.
Qed.

(** DELETE keeps the keys unique. *)
Lemma unique_keys_delete id st :
  unique_keys R st → unique_keys R (delete R id st).1.
Proof.
  intros Hu. unfold delete. destruct (get id (db st)); [|done]. simpl.
  intros i j ri rj. simpl.
  destruct (decide (i = id)) as [->|Hi]; [by rewrite get_del_eq|].
  destruct (decide (j = id)) as [->|Hj]; [by rewrite get_del_eq|].
  rewrite !get_del_ne by done. apply Hu.
Qed.

(** The activation handlers keep the keys unique. *)
Lemma unique_keys_set_active b id now st :
  unique_keys R st → unique_keys R (set_active R b id now st).1.
Proof.
  intros Hu. unfold set_active.
  destruct (get id (db st)) as [row|] eqn:Hget; [|done]. simpl.
  destruct key_not_written as (_ & _ & ? & ?).
  eapply unique_keys_replace; [done..|].
  intros j other Hj Hgj.
  rewrite !lookup_insert_ne by done.
  by apply (Hu j id).
Qed.

(** PUT keeps the keys unique when the key field is left out of the body,
    or is given a value that Python takes for true (a string that is not
    empty). *)
Lemma unique_keys_update id u now st :
  unique_keys R st →
  model_dump_exclude_unset R u !! unique_field R = None ∨
  truthy (getattr (model_dump_exclude_unset R u) (unique_field R)) = true →
  unique_keys R (update R id u now st).1.
Proof.
  intros Hu Hkey. unfold update.
  destruct (get id (db st)) as [existing|] eqn:Hget; [|done].
  destruct (truthy _ && taken_by_other _ _ _ _) eqn:Hcheck; [done|].
  case_bool_decide; [done|]. simpl.
  destruct key_not_written as (_ & _ & ? & _).
  eapply unique_keys_replace; [done..|].
  intros j other Hj Hgj.
  rewrite lookup_insert_ne by done.
  destruct (model_dump_exclude_unset R u !! unique_field R) as [v|] eqn:Hv.
  - rewrite (lookup_union_Some_l _ _ _ _ Hv).
    destruct Hkey as [|Htrue]; [done|].
    unfold getattr in Hcheck, Htrue. rewrite Hv in Hcheck, Htrue. simpl in *.
    rewrite Htrue in Hcheck. simpl in Hcheck. intros Heq.
    assert (taken_by_other R id v (db st) = true) as Ht; [|congruence].
    unfold taken_by_other, items. apply existsb_exists. exists (j, other).
    split; [by apply list_elem_of_In, get_Some_elem|]. simpl.
    by rewrite !bool_decide_eq_true_2.
  - rewrite lookup_union_r by done. by apply (Hu j id).
Qed.

End Uniqueness.

(** ** The entries the handlers subscript are always there *)

Section Complete.
Import OrderedDict.
Variable R : Router.
Hypothesis HR : well_formed R.

Lemma values_set_Forall (P : pydict → Prop) id row (d : OrderedDict.t pydict) :
  Forall P (values d) → P row → Forall P (values (set id row d)).
Proof.
  unfold values. intros Hd Hrow.
  induction d as [|[k v] d IH]; simpl.
  - by repeat constructor.
  - apply Forall_cons in Hd as [Hv Hd]. destruct (decide (id = k)).
    + by constructor.
    + constructor; [done | by apply IH].
Qed.

Lemma complete_replace st id old row :
  complete R st → get id (db st) = Some old →
  (is_Some (old !! "is_active") → is_Some (row !! "is_active")) →
  (is_Some (old !! unique_field R) → is_Some (row !! unique_field R)) →
  complete R {| db := set id row (db st); next_id := next_id st |}.
Proof.
  intros Hc Hold Ha Hk. unfold complete in *. simpl.
  apply values_set_Forall; [done|].
  eapply Forall_forall in Hc as [? ?]; [|by eapply get_Some_value]. auto.
Qed.

Lemma complete_handle q st : complete R st → complete R (handle R q st).1.
Proof.
  intros Hc.
  assert (∀ id u now, complete R (update R id u now st).1) as Hupdate.
  { intros id u now. unfold update.
    destruct (get id (db st)) as [existing|] eqn:Hget; [|done].
    destruct (truthy _ && _); [done|]. case_bool_decide; [done|]. simpl.
    eapply complete_replace; [done..| |]; intros Hsome;
      apply lookup_insert_is_Some'; right;
      apply lookup_union_is_Some; by right. }
  assert (∀ b id now, complete R (set_active R b id now st).1) as Hactive.
  { intros b id now. unfold set_active.
    destruct (get id (db st)) as [row|] eqn:Hget; [|done]. simpl.
    eapply complete_replace; [done..| |]; intros Hsome;
      apply lookup_insert_is_Some'; right;
      apply lookup_insert_is_Some'; by right. }
  destruct q as [c now|id u now|id u now|id|id now|id now]; simpl.
  - destruct (key_taken R c st) eqn:Hk; [by rewrite create_duplicate|].
    rewrite create_fresh by done. unfold complete. simpl.
    apply values_set_Forall; [done|].
    destruct (dump_has_key _ HR c) as [s Hs], (dump_has_active _ HR c) as [b Hb].
    unfold new_row. split; apply lookup_union_is_Some; left; eauto.
  - apply Hupdate.
  - apply Hupdate.
  - unfold delete. destruct (get id (db st)); [|done]. unfold complete. simpl.
    eapply Forall_sublist; [|exact Hc]. apply fmap_sublist, del_sublist.
  - apply Hactive.
  - apply Hactive.
Qed.

Lemma complete_run qs st : complete R st → complete R (run R qs st).1.
Proof.
  revert st. induction qs as [|q qs IH]; intros st Hc; simpl; [done|].
  by apply IH, complete_handle.
Qed.

Lemma complete_initial : complete R initial.
Proof. constructor. Qed.

End Complete.

(** ** The theorems on sample calls *)

Lemma update_conflict_changes_nothing_witness :
  (update Vehicles.router 2 (Samples.replate "ABC-1") 3 Samples.two_vehicles).1
    = Samples.two_vehicles ∧
  ∃ j other,
    (j, other) ∈ db Samples.two_vehicles ∧ j ≠ 2 ∧
    other !! "license_plate"
      = Some (getattr (Vehicles.dump_set (Samples.replate "ABC-1")) "license_plate").
Proof.
  apply (update_conflict_changes_nothing vehicles 2 (Samples.replate "ABC-1") 3
           Samples.two_vehicles).
  by_evaluation.
Defined.

Lemma update_single_field_frame_witness :
  OrderedDict.get 1 (db (update_station 1 (Samples.move_to "Zone A") 2 Samples.one_station).1)
    = Some Samples.station_1_moved ∧
  Samples.station_1_moved !! "location" = Some (VStr "Zone A") ∧
  Samples.station_1_moved !! "updated_at" = Some (VTime 2) ∧
  (∀ g, g ≠ "location" → g ≠ "updated_at" →
        Samples.station_1_moved !! g = Samples.station_1 !! g) ∧
  Samples.station_1_moved !! "id" = Samples.station_1 !! "id" ∧
  Samples.station_1_moved !! "created_at" = Samples.station_1 !! "created_at" ∧
  (∀ j, j ≠ 1 →
        OrderedDict.get j (db (update_station 1 (Samples.move_to "Zone A") 2 Samples.one_station).1)
        = OrderedDict.get j (db Samples.one_station)) ∧
  next_id (update_station 1 (Samples.move_to "Zone A") 2 Samples.one_station).1
    = next_id Samples.one_station.
Proof.
  apply (update_single_field_frame stations 1 (Samples.move_to "Zone A") 2
           Samples.one_station Samples.station_1 Samples.station_1_moved
           "location" (VStr "Zone A")); by_evaluation.
Defined.

Lemma create_duplicate_rejected_witness :
  create_sender Samples.sender_a 2 Samples.one_sender
    = (Samples.one_sender, HTTPException 400 (duplicate_detail Senders.router)) ∧
  duplicate_detail Senders.router = "Email already registered".
Proof.
  apply (create_duplicate_rejected senders Samples.sender_a 2 Samples.one_sender
           Samples.sender_1).
  - apply (get_Some_value 1). by_evaluation.
  - by_evaluation.
Defined.

Lemma get_all_takes_any_bounds_witness :
  get_senders 5 10 None Samples.one_sender = Ok [] ∧
  get_senders (-1) 100 None Samples.one_sender = Ok [Samples.sender_1].
Proof.
  split.
  - refine (proj1 (proj2 (proj2
      (get_all_takes_any_bounds senders 5 10 None Samples.one_sender))) _ _ _);
      vm_compute; intros Hgt; discriminate Hgt.
  - refine (proj2 (proj2 (proj2
      (get_all_takes_any_bounds senders (-1) 100 None Samples.one_sender))) _).
    repeat constructor.
Defined.

Lemma listing_is_page_in_id_order_witness :
  let st := (run Senders.router Samples.four_posted_one_off_one_gone initial).1 in
  (0 ≤ 1 ∧ 0 ≤ 1) ∧
  OrderedDict.keys (db st) = [2; 3; 4] ∧
  matching (Some true) st = [Samples.sender_3; Samples.sender_4] ∧
  get_senders 1 1 (Some true) st = Ok [Samples.sender_4] ∧
  StronglySorted Z.lt (OrderedDict.keys (db st)) ∧
  (∀ rows, get_senders 1 1 (Some true) st = Ok rows →
           rows = take (Z.to_nat 1) (drop (Z.to_nat 1) (matching (Some true) st))).
Proof.
  intros st.
  destruct (listing_is_page_in_id_order senders Samples.four_posted_one_off_one_gone
              1 1 (Some true)) as (Hsorted & _ & _ & _ & Hreturned & _); [lia..|].
  split_and!.
  - lia.
  - lia.
  - vm_cast_no_check (eq_refl [2; 3; 4]).
  - vm_cast_no_check (eq_refl [Samples.sender_3; Samples.sender_4]).
  - vm_cast_no_check (eq_refl (Ok [Samples.sender_4])).
  - exact Hsorted.
  - exact Hreturned.
Defined.

Lemma create_record_witness :
  ∃ row,
    (create_station (Samples.station "S1") 1 initial).2 = Ok row ∧
    OrderedDict.get 1 (db (create_station (Samples.station "S1") 1 initial).1)
      = Some row ∧
    row !! "id" = Some (VInt 1) ∧
    row !! "created_at" = Some (VTime 1) ∧
    row !! "updated_at" = Some (VTime 1) ∧
    row !! "is_active" = Some (VBool true) ∧
    (∀ k, k ∉ ["id"; "created_at"; "updated_at"] →
          row !! k = Stations.dump (Samples.station "S1") !! k).
Proof.
  refine (proj1 (create_record stations (Samples.station "S1") 1 initial _)).
  vm_compute. reflexivity.
Defined.

Lemma assigned_ids_count_up_witness :
  let st := (run Senders.router Samples.post_post_delete initial).1 in
  let ids := assigned_ids Senders.router Samples.post_post_delete initial in
  ids = [VInt 1; VInt 2] ∧
  OrderedDict.keys (db st) = [2] ∧
  Z.of_nat (length ids) + 1 = 3 ∧
  ∃ row,
    (create_sender Samples.sender_a 3 st).2 = Ok row ∧
    row !! "id" = Some (VInt (Z.of_nat (length ids) + 1)) ∧
    OrderedDict.get (Z.of_nat (length ids) + 1)
      (db (create_sender Samples.sender_a 3 st).1) = Some row ∧
    assigned_ids Senders.router
      (Samples.post_post_delete ++ [Create (R := Senders.router) Samples.sender_a 3])
      initial
    = ids ++ [VInt (Z.of_nat (length ids) + 1)].
Proof.
  intros st ids.
  assert (key_taken Senders.router Samples.sender_a st = false) as Hfree
    by vm_cast_no_check (eq_refl false).
  destruct (assigned_ids_count_up senders Samples.post_post_delete Samples.sender_a 3)
    as (_ & _ & _ & Hpost & _).
  split_and!.
  - vm_cast_no_check (eq_refl [VInt 1; VInt 2]).
  - vm_cast_no_check (eq_refl [2]).
  - vm_cast_no_check (eq_refl 3).
  - exact (Hpost Hfree).
Defined.

(** After senders 1 and 2 were created and sender 1 deleted, the next
    sender gets the id 3, and the e-mail of the deleted sender is free. *)
Example assigned_ids_after_delete :
  assigned_ids Senders.router Samples.post_post_delete_post initial
    = [VInt 1; VInt 2; VInt 3] ∧
  OrderedDict.keys (db (run Senders.router Samples.post_post_delete_post initial).1)
    = [2; 3].
Proof. split; by_evaluation. Qed.

(** No row is inactive in the store with the one sender. *)
Example get_senders_inactive_empty :
  get_senders 0 100 (Some false) Samples.one_sender = Ok [].
Proof. by_evaluation. Qed.

(** Deactivating an id that is not in the store is a 404 and changes
    nothing. *)
Example deactivate_sender_missing :
  deactivate_sender 7 2 Samples.one_sender
    = (Samples.one_sender, HTTPException 404 "Sender not found").
Proof. by_evaluation. Qed.

(** ** Where the code parts from the specification *)

(** The 400 of a duplicate POST carries the fixed message; the e-mail that
    was sent is not in it. *)
Lemma create_duplicate_detail_omits_value :
  create_sender Samples.sender_a 2 Samples.one_sender
    = (Samples.one_sender, HTTPException 400 "Email already registered") ∧
  mentions "Email already registered" "a@x.com" = false.
Proof. split; by_evaluation. Qed.

(** A negative [skip] or [limit] is answered with a list: [skip = -1]
    starts the page at the last row, [limit = -1] ends it before the last
    row. *)
Lemma get_senders_negative_bounds_answered :
  get_senders (-1) 100 None Samples.one_sender = Ok [Samples.sender_1] ∧
  get_senders 0 (-1) None Samples.one_sender = Ok [].
Proof. split; by_evaluation. Qed.

(** A POST with ["is_active": false] passes the duplicate check on the
    empty store and stores an inactive record. *)
Lemma create_sender_inactive :
  key_taken Senders.router Samples.sender_a_inactive initial = false ∧
  (create_sender Samples.sender_a_inactive 1 initial).2
    = Ok (<[ "is_active" := VBool false ]> Samples.sender_1) ∧
  OrderedDict.get 1 (db (create_sender Samples.sender_a_inactive 1 initial).1)
    = Some (<[ "is_active" := VBool false ]> Samples.sender_1).
Proof. split_and!; by_evaluation. Qed.

(** C1 fails on the code.  The duplicate check of [update_vehicle] is
    guarded by the truth value of the new plate, so the empty plate is
    written without a check: the three calls of [Samples.empty_plate_twice]
    are all answered with a record, and afterwards vehicles 1 and 2 both
    have the license plate [""]. *)
Theorem update_vehicle_empty_plate_unchecked :
  let r := run Vehicles.router Samples.empty_plate_twice initial in
  is_ok <$> r.2 = [true; true; true] ∧
  OrderedDict.get 1 (db r.1) ≫= (.!! "license_plate") = Some (VStr "") ∧
  OrderedDict.get 2 (db r.1) ≫= (.!! "license_plate") = Some (VStr "") ∧
  ¬ unique_keys Vehicles.router r.1.
Proof.
  intros r. split_and!; [by_evaluation..|].
  intros Huniq.
  set (r1 := default (∅ : pydict) (OrderedDict.get 1 (db r.1))).
  set (r2 := default (∅ : pydict) (OrderedDict.get 2 (db r.1))).
  assert (OrderedDict.get 1 (db r.1) = Some r1) as H1 by by_evaluation.
  assert (OrderedDict.get 2 (db r.1) = Some r2) as H2 by by_evaluation.
  apply (Huniq 1 2 r1 r2 H1 H2); [lia|].
  by_evaluation.
Qed.

(** C9 fails on the code.  The PUT [{"name": null}] on sender 1 is answered
    with the [ValidationError] of the response model, after the name of the
    stored row was set to [None].  From then on both activation calls, and
    both deactivation calls, on the existing id 1 are answered with the
    same error, whereas they write [is_active] and [updated_at]. *)
Theorem activate_nameless_sender_fails :
  (update_sender 1 Samples.name_null 2 Samples.one_sender).2 = ValidationError ∧
  OrderedDict.get 1 (db Samples.nameless_sender)
    = Some (<[ "updated_at" := VTime 2 ]> (<[ "name" := VNone ]> Samples.sender_1)) ∧
  (activate_sender 1 3 Samples.nameless_sender).2 = ValidationError ∧
  (activate_sender 1 4 (activate_sender 1 3 Samples.nameless_sender).1).2
    = ValidationError ∧
  (deactivate_sender 1 3 Samples.nameless_sender).2 = ValidationError ∧
  (deactivate_sender 1 4 (deactivate_sender 1 3 Samples.nameless_sender).1).2
    = ValidationError ∧
  OrderedDict.get 1 (db (deactivate_sender 1 3 Samples.nameless_sender).1)
    = Some (<[ "updated_at" := VTime 3 ]> (<[ "is_active" := VBool false ]>
             (<[ "name" := VNone ]> Samples.sender_1))).
Proof. split_and!; by_evaluation. Qed.

(** C10 fails on the code.  With the stored name of sender 1 set to [None]
    as above, the PUT [{}] on the existing id 1 leaves the store as it is
    and is answered with the [ValidationError] of the response model. *)
Theorem update_nothing_nameless_sender_fails :
  update_sender 1 Senders.nothing 3 Samples.nameless_sender
    = (Samples.nameless_sender, ValidationError).
Proof. by_evaluation. Qed.

(** * Further properties of the handlers *)

(** ** More on the ordered dictionary *)

Section OrderedDictMore.
Import OrderedDict.
Context {V : Type}.
Implicit Types (d : OrderedDict.t V) (k j : Z) (v : V).

Lemma set_set k v1 v2 d : set k v2 (set k v1 d) = set k v2 d.
Proof.
  induction d as [|[k' v'] d IH]; simpl.
  - by rewrite decide_True.
  - destruct (decide (k = k')) as [->|Hne]; simpl.
    + by rewrite decide_True.
    + rewrite decide_False by done. by rewrite IH.
Qed.

Lemma keys_del k d : keys (del k d) = filter (λ j, j ≠ k) (keys d).
Proof.
  unfold keys, del. induction d as [|[k' v'] d IH]; [done|].
  rewrite fmap_cons, !filter_cons. simpl.
  destruct (decide (k' ≠ k)); simpl; [f_equal|]; exact IH.
Qed.

Lemma values_set_present_length k v d :
  is_Some (get k d) → length (set k v d) = length d.
Proof.
  intros H. rewrite <-(length_fmap fst (set k v d)), <-(length_fmap fst d).
  fold (keys (set k v d)). fold (keys d). by rewrite keys_set_present.
Qed.

End OrderedDictMore.

(** ** GET on one record, DELETE *)

(** X1.  In each collection, a record that a POST has just stored can be
    read back: when the POST passes the duplicate check, GET on the id it
    was given returns the very record the POST returned. *)
Theorem get_one_after_create (c : collection) (m : CreateModel (router_of c))
    (now : Z) (st : store) :
  key_taken (router_of c) m st = false →
  ∃ row,
    (create (router_of c) m now st).2 = Ok row ∧
    row !! "id" = Some (VInt (next_id st)) ∧
    get_one (router_of c) (next_id st) (create (router_of c) m now st).1 = Ok row.
Proof.
  intros Hk. pose proof (router_of_well_formed c) as HR.
  exists (new_row (router_of c) m (next_id st) now).
  rewrite create_fresh by done. simpl. split_and!.
  - done.
  - by apply new_row_reserved.
  - unfold get_one. simpl. rewrite get_set_eq.
    apply (new_row_presentable _ HR).
Qed.

(** X2.  In each collection and for every store, once DELETE was called on
    an id (whether it was there or not), GET on that id is a 404 and a
    second DELETE on it is a 404 that changes nothing. *)
Theorem delete_then_gone (c : collection) (id : Z) (st : store) :
  let st' := (delete (router_of c) id st).1 in
  get_one (router_of c) id st' = HTTPException 404 (not_found_detail (router_of c)) ∧
  delete (router_of c) id st' = (st', HTTPException 404 (not_found_detail (router_of c))).
Proof.
  intros st'.
  assert (OrderedDict.get id (db st') = None) as Hnone.
  { subst st'. unfold delete.
    destruct (OrderedDict.get id (db st)) eqn:Hget; simpl; [apply get_del_eq | done]. }
  unfold get_one, delete. by rewrite Hnone.
Qed.

(** X3.  In each collection, DELETE on an id that is in the store is
    answered without a body and removes that row only: every other id
    still has its row, the remaining rows keep their order, and the counter
    is not touched (so the id is not handed out again). *)
Theorem delete_removes_one (c : collection) (id : Z) (st : store) (row : pydict) :
  OrderedDict.get id (db st) = Some row →
  let r := delete (router_of c) id st in
  r.2 = Ok () ∧
  OrderedDict.get id (db r.1) = None ∧
  (∀ j, j ≠ id → OrderedDict.get j (db r.1) = OrderedDict.get j (db st)) ∧
  OrderedDict.keys (db r.1) = filter (λ j, j ≠ id) (OrderedDict.keys (db st)) ∧
  next_id r.1 = next_id st.
Proof.
  intros Hget r. subst r. unfold delete. rewrite Hget. simpl. split_and!.
  - done.
  - apply get_del_eq.
  - intros j Hj. by apply get_del_ne.
  - apply keys_del.
  - done.
Qed.

(** ** Errors *)

Lemma set_active_http (R : Router) b id now st s d :
  (set_active R b id now st).2 = HTTPException s d →
  OrderedDict.get id (db st) = None ∧
  s = 404 ∧ d = not_found_detail R.
Proof.
  unfold set_active. destruct (OrderedDict.get id (db st)); simpl.
  - intros H. by apply construct_not_http in H.
  - by intros [= <- <-].
Qed.

Lemma update_http_cases (R : Router) id u now st s d :
  (update R id u now st).2 = HTTPException s d →
  (OrderedDict.get id (db st) = None ∧ s = 404 ∧ d = not_found_detail R) ∨
  (is_Some (OrderedDict.get id (db st)) ∧ s = 400 ∧ d = duplicate_detail R).
Proof.
  unfold update. destruct (OrderedDict.get id (db st)) as [existing|]; simpl.
  - destruct (truthy _ && _).
    + intros [= <- <-]. right. eauto.
    + case_bool_decide; simpl; intros Hc; by apply construct_not_http in Hc.
  - intros [= <- <-]. by left.
Qed.

(** X4.  In each collection, whenever a writing call (POST, PUT, PATCH,
    DELETE, activate, deactivate) is answered with an [HTTPException], the
    store is exactly as before the call, and the exception is the 404 with
    the "not found" message of the router or the 400 with its duplicate
    message; no other status is raised. *)
Theorem http_exception_changes_nothing (c : collection)
    (q : request (router_of c)) (st : store) (s : Z) (d : string) :
  (handle (router_of c) q st).2 = HTTPException s d →
  (handle (router_of c) q st).1 = st ∧
  ((s = 404 ∧ d = not_found_detail (router_of c)) ∨
   (s = 400 ∧ d = duplicate_detail (router_of c))).
Proof.
  set (R := router_of c). pose proof (router_of_well_formed c) as HR.
  destruct q as [m now|id u now|id u now|id|id now|id now]; simpl.
  - destruct (key_taken R m st) eqn:Hk.
    + rewrite create_duplicate by done. simpl. intros [= <- <-]. auto.
    + by rewrite (create_fresh R HR) by done.
  - destruct (update R id u now st).2 as [row|s' d'|] eqn:Hout; try done.
    intros [= -> ->]. split; [by eapply update_http|].
    apply update_http_cases in Hout as [(_ & -> & ->)|(_ & -> & ->)]; auto.
  - unfold patch.
    destruct (update R id u now st).2 as [row|s' d'|] eqn:Hout; try done.
    intros [= -> ->]. split; [by eapply update_http|].
    apply update_http_cases in Hout as [(_ & -> & ->)|(_ & -> & ->)]; auto.
  - unfold delete. destruct (OrderedDict.get id (db st)); simpl; [done|].
    intros [= <- <-]. auto.
  - destruct (activate R id now st).2 as [row|s' d'|] eqn:Hout; try done.
    intros [= -> ->]. apply set_active_http in Hout as (Hnone & -> & ->).
    unfold activate, set_active. rewrite Hnone. auto.
  - destruct (deactivate R id now st).2 as [row|s' d'|] eqn:Hout; try done.
    intros [= -> ->]. apply set_active_http in Hout as (Hnone & -> & ->).
    unfold deactivate, set_active. rewrite Hnone. auto.
Qed.

(** X5.  In each collection, a call that names an id in its path (PUT,
    PATCH, DELETE, activate, deactivate) is answered with the 404 exactly
    when the id is not a key of the store; GET on one record likewise. *)
Theorem not_found_iff_absent (c : collection) (q : request (router_of c))
    (id : Z) (st : store) :
  target q = Some id →
  ((∃ d, (handle (router_of c) q st).2 = HTTPException 404 d) ↔
   OrderedDict.get id (db st) = None) ∧
  ((∃ d, get_one (router_of c) id st = HTTPException 404 d) ↔
   OrderedDict.get id (db st) = None).
Proof.
  set (R := router_of c). intros Ht. split.
  - destruct q as [m now|i u now|i u now|i|i now|i now];
      simpl in Ht; try done; injection Ht as ->; simpl; split.
    + intros [d Hd].
      destruct (update R id u now st).2 as [row|s' d'|] eqn:Hout; try done.
      injection Hd as -> ->.
      apply update_http_cases in Hout as [(? & _)|(_ & ? & _)]; [done|lia].
    + intros Hnone. rewrite update_not_found by done. simpl. eauto.
    + intros [d Hd]. unfold patch in Hd.
      destruct (update R id u now st).2 as [row|s' d'|] eqn:Hout; try done.
      injection Hd as -> ->.
      apply update_http_cases in Hout as [(? & _)|(_ & ? & _)]; [done|lia].
    + intros Hnone. unfold patch. rewrite update_not_found by done. simpl. eauto.
    + intros [d Hd]. unfold delete in Hd.
      by destruct (OrderedDict.get id (db st)).
    + intros Hnone. unfold delete. rewrite Hnone. simpl. eauto.
    + intros [d Hd].
      destruct (activate R id now st).2 as [row|s' d'|] eqn:Hout; try done.
      by apply set_active_http in Hout as (? & _).
    + intros Hnone. unfold activate, set_active. rewrite Hnone. simpl. eauto.
    + intros [d Hd].
      destruct (deactivate R id now st).2 as [row|s' d'|] eqn:Hout; try done.
      by apply set_active_http in Hout as (? & _).
    + intros Hnone. unfold deactivate, set_active. rewrite Hnone. simpl. eauto.
  - unfold get_one. destruct (OrderedDict.get id (db st)) as [row|]; split.
    + intros [d Hd]. by apply construct_not_http in Hd.
    + done.
    + done.
    + eauto.
Qed.

(** ** Invariants of the stores that are reached *)

Lemma unique_keys_initial (R : Router) : unique_keys R initial.
Proof. intros i j ri rj Hi. done. Qed.

Lemma unique_keys_handle (R : Router) (q : request R) (st : store) :
  well_formed R → ordered st → key_checked q →
  unique_keys R st → unique_keys R (handle R q st).1.
Proof.
  intros HR Ho Hq Hu.
  destruct q as [m now|id u now|id u now|id|id now|id now]; simpl in *.
  - by apply unique_keys_create.
  - by apply unique_keys_update.
  - by apply unique_keys_update.
  - by apply unique_keys_delete.
  - by apply unique_keys_set_active.
  - by apply unique_keys_set_active.
Qed.

Lemma unique_keys_run (R : Router) (qs : list (request R)) (st : store) :
  well_formed R → ordered st → Forall key_checked qs →
  unique_keys R st → unique_keys R (run R qs st).1.
Proof.
  intros HR. revert st. induction qs as [|q qs IH]; intros st Ho Hqs Hu; [done|].
  apply Forall_cons in Hqs as [Hq Hqs]. simpl.
  apply IH; [by apply ordered_handle | done | by apply unique_keys_handle].
Qed.

(** X6.  In each collection, after any sequence of calls on the empty
    store in which every PUT and PATCH either leaves the key field out of
    its body or gives it a string that is not empty, no two stored rows
    have the same value in the key field. *)
Theorem keys_unique_when_checked (c : collection) (qs : list (request (router_of c))) :
  Forall key_checked qs →
  unique_keys (router_of c) (run (router_of c) qs initial).1.
Proof.
  intros Hqs. apply unique_keys_run;
    [apply router_of_well_formed | apply ordered_initial | done
    | apply unique_keys_initial].
Qed.

(** X7.  In each collection, at every store reached from the empty one, a
    POST that passes the duplicate check overwrites nothing: the rows after
    the call are the rows before it, in their order, followed by the new
    row under the id the counter held. *)
Theorem create_appends (c : collection) (qs : list (request (router_of c)))
    (m : CreateModel (router_of c)) (now : Z) :
  let st := (run (router_of c) qs initial).1 in
  key_taken (router_of c) m st = false →
  db (create (router_of c) m now st).1
    = db st ++ [(next_id st, new_row (router_of c) m (next_id st) now)] ∧
  OrderedDict.get (next_id st) (db st) = None.
Proof.
  intros st Hk. pose proof (router_of_well_formed c) as HR.
  assert (ordered st) as Ho by (by apply ordered_run, ordered_initial).
  pose proof (ordered_get_None st Ho) as Hnone. split; [|done].
  rewrite create_fresh by done. simpl. by apply set_fresh.
Qed.

(** X8.  In each collection, at every store reached from the empty one,
    every row has an ["is_active"] entry and an entry for the key field, so
    the subscripts of the listing filter and of the two duplicate checks
    never meet a missing entry. *)
Theorem rows_have_subscripted_entries (c : collection)
    (qs : list (request (router_of c))) :
  complete (router_of c) (run (router_of c) qs initial).1.
Proof.
  apply complete_run; [apply router_of_well_formed | apply complete_initial].
Qed.

(** ** The activation calls and the empty PUT on accepted rows *)

(** X9.  In each collection, let the row of [id] be accepted by the
    response model.  Then activate (with [b] true) or deactivate (with [b]
    false) called twice in a row is answered with a record both times; each
    record has [is_active = b] and the time of its call as [updated_at] and
    agrees with the row in every other field; it is the stored row, and no
    other row changes. *)
Theorem set_active_twice (c : collection) (b : bool) (id now1 now2 : Z)
    (st : store) (row : pydict) :
  OrderedDict.get id (db st) = Some row → presentable (router_of c) row →
  let r1 := set_active (router_of c) b id now1 st in
  let r2 := set_active (router_of c) b id now2 r1.1 in
  let row1 := <[ "updated_at" := VTime now1 ]> (<[ "is_active" := VBool b ]> row) in
  let row2 := <[ "updated_at" := VTime now2 ]> (<[ "is_active" := VBool b ]> row) in
  r1.2 = Ok row1 ∧ OrderedDict.get id (db r1.1) = Some row1 ∧
  r2.2 = Ok row2 ∧ OrderedDict.get id (db r2.1) = Some row2 ∧
  (∀ j, j ≠ id → OrderedDict.get j (db r2.1) = OrderedDict.get j (db st)) ∧
  (∀ k, k ≠ "is_active" → k ≠ "updated_at" → row2 !! k = row !! k).
Proof.
  intros Hget Hrow.
  apply (activation_twice_presentable _ (router_of_well_formed c)); done.
Qed.

(** X10.  In each collection, a PUT or PATCH whose body sets no field, on
    an id whose row the response model accepts, returns that row and leaves
    the store as it is; in particular [updated_at] is not refreshed. *)
Theorem update_without_fields (c : collection) (id : Z)
    (u : UpdateModel (router_of c)) (now : Z) (st : store) (row : pydict) :
  OrderedDict.get id (db st) = Some row → presentable (router_of c) row →
  model_dump_exclude_unset (router_of c) u = ∅ →
  update (router_of c) id u now st = (st, Ok row) ∧
  patch (router_of c) id u now st = (st, Ok row).
Proof.
  intros Hget Hrow Hu. unfold patch.
  by rewrite (update_nothing_presentable _ id u now st row Hget Hrow Hu).
Qed.

(** X11.  In each collection and for every store, of two activation calls
    on the same id the last one decides: the store after [set_active b1]
    at [now1] followed by [set_active b2] at [now2] is the store after the
    second call alone, and the second call gives the same answer in both. *)
Theorem set_active_last_wins (c : collection) (b1 b2 : bool) (id now1 now2 : Z)
    (st : store) :
  set_active (router_of c) b2 id now2 (set_active (router_of c) b1 id now1 st).1
    = set_active (router_of c) b2 id now2 st.
Proof.
  unfold set_active.
  destruct (OrderedDict.get id (db st)) as [row|] eqn:Hget; simpl.
  - rewrite get_set_eq, set_set.
    assert (<[ "updated_at" := VTime now2 ]> (<[ "is_active" := VBool b2 ]>
              (<[ "updated_at" := VTime now1 ]> (<[ "is_active" := VBool b1 ]> row)))
            = <[ "updated_at" := VTime now2 ]> (<[ "is_active" := VBool b2 ]> row))
      as ->; [|done].
    apply map_eq. intros k.
    destruct (decide (k = "updated_at")) as [->|]; [by rewrite !lookup_insert_eq|].
    rewrite !(lookup_insert_ne _ "updated_at") by done.
    destruct (decide (k = "is_active")) as [->|]; [by rewrite !lookup_insert_eq|].
    by rewrite !lookup_insert_ne by done.
  - by rewrite Hget.
Qed.

(** ** Stores in which no call has died on the response model *)

Lemma presentable_handle (R : Router) (q : request R) (st : store) :
  well_formed R →
  Forall (presentable R) (OrderedDict.values (db st)) →
  (handle R q st).2 ≠ ValidationError →
  Forall (presentable R) (OrderedDict.values (db (handle R q st).1)).
Proof.
  intros HR Hall.
  assert (∀ id u now, (with_body (update R id u now st)).2 ≠ ValidationError →
    Forall (presentable R) (OrderedDict.values (db (update R id u now st).1))) as Hupdate.
  { intros id u now. unfold update.
    destruct (OrderedDict.get id (db st)) as [existing|]; [|done].
    destruct (truthy _ && _); [done|]. case_bool_decide; [done|]. simpl.
    intros Hv. apply values_set_Forall; [done|].
    unfold presentable. by destruct (construct_cases R
      (<[ "updated_at" := VTime now ]> (model_dump_exclude_unset R u ∪ existing)))
      as [-> | Hbad]; [|rewrite Hbad in Hv]. }
  assert (∀ b id now, (with_body (set_active R b id now st)).2 ≠ ValidationError →
    Forall (presentable R) (OrderedDict.values (db (set_active R b id now st).1))) as Hactive.
  { intros b id now. unfold set_active.
    destruct (OrderedDict.get id (db st)) as [row|]; [|done]. simpl.
    intros Hv. apply values_set_Forall; [done|].
    unfold presentable. by destruct (construct_cases R
      (<[ "updated_at" := VTime now ]> (<[ "is_active" := VBool b ]> row)))
      as [-> | Hbad]; [|rewrite Hbad in Hv]. }
  destruct q as [m now|id u now|id u now|id|id now|id now]; simpl.
  - intros _. destruct (key_taken R m st) eqn:Hk.
    + by rewrite create_duplicate.
    + rewrite create_fresh by done. simpl.
      apply values_set_Forall; [done | apply (new_row_presentable _ HR)].
  - apply Hupdate.
  - apply Hupdate.
  - intros _. unfold delete. destruct (OrderedDict.get id (db st)); [|done]. simpl.
    eapply Forall_sublist; [|exact Hall]. apply fmap_sublist, del_sublist.
  - apply Hactive.
  - apply Hactive.
Qed.

Lemma presentable_run (R : Router) (qs : list (request R)) (st : store) :
  well_formed R →
  Forall (presentable R) (OrderedDict.values (db st)) →
  Forall (λ r, r ≠ ValidationError) (run R qs st).2 →
  Forall (presentable R) (OrderedDict.values (db (run R qs st).1)).
Proof.
  intros HR. revert st. induction qs as [|q qs IH]; intros st Hall Hok; [done|].
  simpl in *. apply Forall_cons in Hok as [Hq Hok].
  apply IH; [by apply presentable_handle | done].
Qed.

(** X12.  In each collection, after a sequence of calls on the empty store
    none of which was answered with a [ValidationError], the response model
    accepts every stored row; so every listing, whatever its [skip],
    [limit] and filter, returns a list, and GET on a stored id returns its
    row. *)
Theorem reads_succeed_after_clean_history (c : collection)
    (qs : list (request (router_of c))) :
  Forall (λ r, r ≠ ValidationError) (run (router_of c) qs initial).2 →
  let st := (run (router_of c) qs initial).1 in
  Forall (presentable (router_of c)) (OrderedDict.values (db st)) ∧
  (∀ skip limit f, ∃ rows, get_all (router_of c) skip limit f st = Ok rows) ∧
  (∀ id row, OrderedDict.get id (db st) = Some row →
             get_one (router_of c) id st = Ok row).
Proof.
  intros Hok st.
  assert (Forall (presentable (router_of c)) (OrderedDict.values (db st))) as Hall.
  { apply presentable_run; [apply router_of_well_formed | constructor | done]. }
  split_and!; [done| |].
  - intros skip limit f. eexists. rewrite get_all_unfold.
    apply map_construct_presentable. eapply Forall_sublist; [|exact Hall].
    etrans; [apply py_slice_sublist | apply matching_sublist].
  - intros id row Hget. unfold get_one. rewrite Hget.
    eapply Forall_forall in Hall; [exact Hall|]. by eapply get_Some_value.
Qed.

(** ** Pages *)

Lemma py_slice_length {A} (a limit : Z) (l : list A) :
  0 ≤ limit → Z.of_nat (length (py_slice a (a + limit) l)) ≤ limit.
Proof.
  intros Hl. unfold py_slice. rewrite length_take.
  assert (clamp_index (Z.of_nat (length l)) (a + limit)
          - clamp_index (Z.of_nat (length l)) a ≤ limit); [|lia].
  unfold clamp_index.
  destruct (Z.ltb_spec (a + limit) 0), (Z.ltb_spec a 0); lia.
Qed.

(** X13.  In each collection and for every store, a listing with a [limit]
    that is not negative returns at most [limit] records, whatever [skip]
    is; every returned record is a stored row, and under an [is_active]
    filter every returned record has that value of [is_active]. *)
Theorem listing_page_bounded_and_filtered (c : collection) (skip limit : Z)
    (f : option bool) (st : store) (rows : list pydict) :
  get_all (router_of c) skip limit f st = Ok rows →
  (0 ≤ limit → Z.of_nat (length rows) ≤ limit) ∧
  rows ⊆ OrderedDict.values (db st) ∧
  (∀ b, f = Some b → Forall (λ row, row !! "is_active" = Some (VBool b)) rows).
Proof.
  rewrite get_all_unfold. intros ->%map_construct_Ok. split_and!.
  - intros Hl. by apply py_slice_length.
  - apply sublist_subseteq.
    etrans; [apply py_slice_sublist | apply matching_sublist].
  - intros b ->. apply Forall_forall. intros row Hin.
    apply (sublist_subseteq _ _ (py_slice_sublist skip (skip + limit) _)) in Hin.
    simpl in Hin. by apply list_elem_of_filter in Hin as [? _].
Qed.

Lemma take_add_drop {A} (a b : nat) (l : list A) :
  take (a + b) l = take a l ++ take b (drop a l).
Proof.
  revert l. induction a as [|a IH]; intros [|x l]; simpl; try done.
  - by rewrite take_nil.
  - by rewrite IH.
Qed.

Lemma map_outcome_app {A B} (f : A → outcome B) (l1 l2 : list A) r1 r2 :
  map_outcome f l1 = Ok r1 → map_outcome f l2 = Ok r2 →
  map_outcome f (l1 ++ l2) = Ok (r1 ++ r2).
Proof.
  revert r1. induction l1 as [|x l1 IH]; simpl; intros r1.
  - by intros [= <-].
  - destruct (f x); try done. destruct (map_outcome f l1) as [ys| |]; try done.
    intros [= <-] H2. by rewrite (IH ys eq_refl H2).
Qed.

(** X14.  In each collection and for every store, two listings that follow
    one another make up the listing of both: when [skip], [limit1] and
    [limit2] are not negative, the page of [limit1] records from [skip]
    followed by the page of [limit2] records from [skip + limit1] is the
    page of [limit1 + limit2] records from [skip] (under the same filter). *)
Theorem listing_pages_concatenate (c : collection) (skip limit1 limit2 : Z)
    (f : option bool) (st : store) (page1 page2 : list pydict) :
  0 ≤ skip → 0 ≤ limit1 → 0 ≤ limit2 →
  get_all (router_of c) skip limit1 f st = Ok page1 →
  get_all (router_of c) (skip + limit1) limit2 f st = Ok page2 →
  get_all (router_of c) skip (limit1 + limit2) f st = Ok (page1 ++ page2).
Proof.
  intros Hs H1 H2. rewrite !get_all_unfold, !py_slice_nonneg by lia.
  rewrite !Z2Nat.inj_add by lia. rewrite take_add_drop, drop_drop.
  intros Hp1 Hp2.
  pose proof (map_construct_Ok _ _ _ Hp1) as ->.
  pose proof (map_construct_Ok _ _ _ Hp2) as ->.
  by apply map_outcome_app.
Qed.

(** ** A deleted key is free again *)

Lemma elem_get {V} (k : Z) (v : V) (d : OrderedDict.t V) :
  NoDup (OrderedDict.keys d) → (k, v) ∈ d → OrderedDict.get k d = Some v.
Proof.
  unfold OrderedDict.keys. induction d as [|[k' v'] d IH]; simpl.
  - by intros _ ?%elem_of_nil.
  - rewrite NoDup_cons. intros [Hk' Hd] [[= -> ->]|Hin]%elem_of_cons.
    + by rewrite decide_True.
    + rewrite decide_False; [by apply IH|].
      intros ->. apply Hk'. apply list_elem_of_fmap. by exists (k', v).
Qed.

Lemma ordered_NoDup st : ordered st → NoDup (OrderedDict.keys (db st)).
Proof.
  intros [_ Hs _ _]. revert Hs. generalize (OrderedDict.keys (db st)).
  induction 1 as [|k ks Hs IH Hk]; constructor; [|done].
  intros Hin. eapply Forall_forall in Hk; [|done]. lia.
Qed.

(** X15.  In each collection, take a store reached from the empty one by
    calls whose PUT and PATCH bodies leave the key out or give it a string
    that is not empty.  If the row of [id] holds the key of a create model,
    then after DELETE on [id] a POST of that model passes the duplicate
    check: the key of a deleted record can be used again. *)
Theorem deleted_key_is_free (c : collection) (qs : list (request (router_of c)))
    (id : Z) (row : pydict) (m : CreateModel (router_of c)) :
  Forall key_checked qs →
  let st := (run (router_of c) qs initial).1 in
  OrderedDict.get id (db st) = Some row →
  row !! unique_field (router_of c)
    = Some (getattr (model_dump (router_of c) m) (unique_field (router_of c))) →
  key_taken (router_of c) m st = true ∧
  key_taken (router_of c) m (delete (router_of c) id st).1 = false.
Proof.
  set (R := router_of c). intros Hqs st Hget Hkey.
  pose proof (router_of_well_formed c) as HR.
  assert (ordered st) as Ho by (by apply ordered_run, ordered_initial).
  assert (unique_keys R st) as Hu.
  { apply unique_keys_run; [done | apply ordered_initial | done
                           | apply unique_keys_initial]. }
  split.
  - apply key_taken_elem. exists row. split; [by eapply get_Some_value|done].
  - destruct (key_taken R m (delete R id st).1) eqn:Ht; [|done]. exfalso.
    apply key_taken_elem in Ht as (other & Hin & Hother).
    unfold delete in Hin. rewrite Hget in Hin. simpl in Hin.
    unfold OrderedDict.values, OrderedDict.del in Hin.
    apply list_elem_of_fmap in Hin as ([j other'] & -> & Hin).
    apply list_elem_of_filter in Hin as [Hj Hin]. simpl in *.
    apply elem_get in Hin; [|by apply ordered_NoDup].
    apply (Hu j id other' row Hin Hget Hj). congruence.
Qed.

(** ** Time stamps *)

Lemma stamped_mono (T T' : Z) row : T ≤ T' → stamped T row → stamped T' row.
Proof. intros ? (a & b & ? & ? & ?). exists a, b. split_and!; [done..|lia|lia]. Qed.

Lemma stamped_restamp (T now : Z) (row row' : pydict) :
  T ≤ now → stamped T row →
  row' !! "created_at" = row !! "created_at" →
  row' !! "updated_at" = Some (VTime now) →
  stamped now row'.
Proof.
  intros ? (a & b & Ha & Hb & ?) Hc Hu. exists a, now.
  rewrite Hc, Ha, Hu. split_and!; [done..|lia|lia].
Qed.

Lemma stamped_handle (R : Router) (q : request R) (T : Z) (st : store) :
  well_formed R →
  Forall (stamped T) (OrderedDict.values (db st)) →
  match request_time q with
  | Some now =>
      T ≤ now → Forall (stamped now) (OrderedDict.values (db (handle R q st).1))
  | None => Forall (stamped T) (OrderedDict.values (db (handle R q st).1))
  end.
Proof.
  intros HR Hall.
  assert (∀ now, T ≤ now → Forall (stamped now) (OrderedDict.values (db st))) as Hlater.
  { intros now ?. eapply Forall_impl; [exact Hall|]. intros row. by apply stamped_mono. }
  assert (∀ id row, OrderedDict.get id (db st) = Some row → stamped T row) as Hrow.
  { intros id row Hget. eapply Forall_forall in Hall; [exact Hall|].
    by eapply get_Some_value. }
  assert (∀ id u now, T ≤ now →
    Forall (stamped now) (OrderedDict.values (db (update R id u now st).1))) as Hupdate.
  { intros id u now Hnow. unfold update.
    destruct (OrderedDict.get id (db st)) as [existing|] eqn:Hget; [|by apply Hlater].
    destruct (truthy _ && _); [by apply Hlater|].
    case_bool_decide; [by apply Hlater|]. simpl.
    apply values_set_Forall; [by apply Hlater|].
    eapply stamped_restamp; [done | by eapply Hrow | | apply lookup_insert_eq].
    rewrite lookup_insert_ne by done. apply lookup_union_r.
    apply (dump_set_reserved _ HR). rewrite !elem_of_cons. auto. }
  assert (∀ b id now, T ≤ now →
    Forall (stamped now) (OrderedDict.values (db (set_active R b id now st).1))) as Hactive.
  { intros b id now Hnow. unfold set_active.
    destruct (OrderedDict.get id (db st)) as [row|] eqn:Hget; [|by apply Hlater]. simpl.
    apply values_set_Forall; [by apply Hlater|].
    eapply stamped_restamp; [done | by eapply Hrow | | apply lookup_insert_eq].
    by rewrite !lookup_insert_ne. }
  destruct q as [m now|id u now|id u now|id|id now|id now]; simpl.
  - intros Hnow. destruct (key_taken R m st) eqn:Hk.
    + rewrite create_duplicate by done. by apply Hlater.
    + rewrite create_fresh by done. simpl.
      apply values_set_Forall; [by apply Hlater|].
      destruct (new_row_reserved R HR m (next_id st) now) as (_ & Hc & Hu).
      exists now, now. split_and!; [done..|lia|lia].
  - apply Hupdate.
  - apply Hupdate.
  - unfold delete. destruct (OrderedDict.get id (db st)); [|done]. simpl.
    eapply Forall_sublist; [|exact Hall]. apply fmap_sublist, del_sublist.
  - apply Hactive.
  - apply Hactive.
Qed.

Lemma last_reading_le {R} (qs : list (request R)) (T : Z) :
  chronological T qs → T ≤ last_reading T qs.
Proof.
  revert T. induction qs as [|q qs IH]; intros T Hch; simpl in *; [lia|].
  destruct (request_time q) as [now|].
  - destruct Hch as [? Hch]. apply IH in Hch. lia.
  - by apply IH.
Qed.

Lemma stamped_run (R : Router) (qs : list (request R)) (T : Z) (st : store) :
  well_formed R → chronological T qs →
  Forall (stamped T) (OrderedDict.values (db st)) →
  Forall (stamped (last_reading T qs)) (OrderedDict.values (db (run R qs st).1)).
Proof.
  intros HR. revert T st. induction qs as [|q qs IH]; intros T st Hch Hall.
  - done.
  - simpl in *. pose proof (stamped_handle R q T st HR Hall) as Hstep.
    destruct (request_time q) as [now|].
    + destruct Hch as [Hnow Hch]. by apply IH, Hstep.
    + by apply IH.
Qed.

(** X16.  In each collection, when the clock readings of a sequence of
    calls on the empty store never go backwards from [T] on, every stored
    row has a [created_at] and an [updated_at] that are times, its
    [updated_at] is not earlier than its [created_at], and not later than
    the last clock reading of the sequence, which is not earlier than
    [T]. *)
Theorem updated_not_before_created (c : collection)
    (qs : list (request (router_of c))) (T : Z) :
  chronological T qs →
  T ≤ last_reading T qs ∧
  Forall (λ row, ∃ a b,
            row !! "created_at" = Some (VTime a) ∧
            row !! "updated_at" = Some (VTime b) ∧
            a ≤ b ≤ last_reading T qs)
    (OrderedDict.values (db (run (router_of c) qs initial).1)).
Proof.
  intros Hch. split; [by apply last_reading_le|].
  apply (stamped_run (router_of c) qs T initial);
    [apply router_of_well_formed | done | constructor].
Qed.

(** ** PUT with any body *)

(** X17.  In each collection, let a PUT or PATCH with a body that sets at
    least one field, on an id that is in the store, be answered with a
    record.  Then the record is the stored row; every field the body sets
    has the value of the body ([None] for a field sent as null);
    [updated_at] is the time of the call; every field the body leaves out,
    among them [id] and [created_at], is as before; and no other row and
    not the counter changes. *)
Theorem update_merges_body (c : collection) (id : Z)
    (u : UpdateModel (router_of c)) (now : Z) (st : store) (row res : pydict) :
  OrderedDict.get id (db st) = Some row →
  model_dump_exclude_unset (router_of c) u ≠ ∅ →
  (update (router_of c) id u now st).2 = Ok res →
  let st' := (update (router_of c) id u now st).1 in
  OrderedDict.get id (db st') = Some res ∧
  (∀ k v, model_dump_exclude_unset (router_of c) u !! k = Some v → res !! k = Some v) ∧
  res !! "updated_at" = Some (VTime now) ∧
  (∀ k, model_dump_exclude_unset (router_of c) u !! k = None →
        k ≠ "updated_at" → res !! k = row !! k) ∧
  res !! "id" = row !! "id" ∧
  res !! "created_at" = row !! "created_at" ∧
  (∀ j, j ≠ id → OrderedDict.get j (db st') = OrderedDict.get j (db st)) ∧
  next_id st' = next_id st.
Proof.
  set (R := router_of c). intros Hrow Hne Hres st'. subst st'.
  pose proof (router_of_well_formed c) as HR.
  assert (∀ k, k ∈ ["id"; "created_at"; "updated_at"] →
               model_dump_exclude_unset R u !! k = None) as Hreserved
    by apply (dump_set_reserved _ HR).
  assert ((update R id u now st).2 ≠ HTTPException 400 (duplicate_detail R)) as Hnot
    by (by rewrite Hres).
  pose proof (update_written R id u now st row Hrow Hnot Hne) as Heq.
  simpl in Heq. rewrite Heq in Hres |- *. clear Heq Hnot. simpl in *.
  apply construct_Ok in Hres. subst res.
  assert (∀ k, model_dump_exclude_unset R u !! k = None → k ≠ "updated_at" →
    <[ "updated_at" := VTime now ]> (model_dump_exclude_unset R u ∪ row) !! k
    = row !! k) as Hframe.
  { intros k Hk ?. rewrite lookup_insert_ne by done. by apply lookup_union_r. }
  split_and!.
  - apply get_set_eq.
  - intros k v Hk. rewrite lookup_insert_ne.
    + by apply lookup_union_Some_l.
    + intros <-. rewrite Hreserved in Hk; [done|]. rewrite !elem_of_cons. auto.
  - apply lookup_insert_eq.
  - exact Hframe.
  - apply Hframe; [|done]. apply Hreserved. rewrite !elem_of_cons. auto.
  - apply Hframe; [|done]. apply Hreserved. rewrite !elem_of_cons. auto.
  - intros j Hj. by apply get_set_ne.
  - done.
Qed.

(** ** The id of a record that is read *)

(** X18.  In each collection, at every store reached from the empty one, a
    GET on [id] that returns a record returns the row stored under [id],
    the record carries [id] as its own ["id"], and [id] is positive and
    below the counter (it was handed out by an earlier POST). *)
Theorem get_one_returns_requested_id (c : collection)
    (qs : list (request (router_of c))) (id : Z) (row : pydict) :
  let st := (run (router_of c) qs initial).1 in
  get_one (router_of c) id st = Ok row →
  OrderedDict.get id (db st) = Some row ∧
  row !! "id" = Some (VInt id) ∧
  0 < id < next_id st.
Proof.
  intros st Hget. pose proof (router_of_well_formed c) as HR.
  assert (ordered st) as Ho by (by apply ordered_run, ordered_initial).
  unfold get_one in Hget.
  destruct (OrderedDict.get id (db st)) as [row'|] eqn:Hrow; [|done].
  apply construct_Ok in Hget as ->. split; [|split].
  - done.
  - by eapply ordered_get_id.
  - destruct Ho as [_ _ Hb _]. rewrite Forall_forall in Hb.
    apply Hb. eapply get_Some_key. exact Hrow.
Qed.

(** ** The further properties on sample calls *)

(** A list of replies without [ValidationError], by evaluation. *)
Lemma clean_replies (rs : list reply) :
  forallb (λ r, match r with ValidationError => false | _ => true end) rs = true →
  Forall (λ r, r ≠ ValidationError) rs.
Proof.
  intros Hall. apply Forall_forall. intros r Hin ->.
  rewrite forallb_forall in Hall.
  by apply list_elem_of_In, Hall in Hin.
Qed.

Lemma get_one_after_create_witness :
  ∃ row,
    (create_sender Samples.sender_a 1 initial).2 = Ok row ∧
    row !! "id" = Some (VInt 1) ∧
    get_sender 1 (create_sender Samples.sender_a 1 initial).1 = Ok row.
Proof.
  apply (get_one_after_create senders Samples.sender_a 1 initial).
  vm_compute. reflexivity.
Defined.

Lemma delete_removes_one_witness :
  (delete_sender 1 Samples.one_sender).2 = Ok () ∧
  OrderedDict.get 1 (db (delete_sender 1 Samples.one_sender).1) = None ∧
  (∀ j, j ≠ 1 → OrderedDict.get j (db (delete_sender 1 Samples.one_sender).1)
                = OrderedDict.get j (db Samples.one_sender)) ∧
  OrderedDict.keys (db (delete_sender 1 Samples.one_sender).1)
    = filter (λ j, j ≠ 1) (OrderedDict.keys (db Samples.one_sender)) ∧
  next_id (delete_sender 1 Samples.one_sender).1 = next_id Samples.one_sender.
Proof.
  apply (delete_removes_one senders 1 Samples.one_sender Samples.sender_1).
  vm_cast_no_check (eq_refl (Some Samples.sender_1)).
Defined.

Lemma not_found_iff_absent_witness :
  ((∃ d, (handle Senders.router (Delete 7) Samples.one_sender).2
         = HTTPException 404 d) ↔
   OrderedDict.get 7 (db Samples.one_sender) = None) ∧
  ((∃ d, get_sender 7 Samples.one_sender = HTTPException 404 d) ↔
   OrderedDict.get 7 (db Samples.one_sender) = None).
Proof.
  apply (not_found_iff_absent senders (Delete 7) 7 Samples.one_sender).
  reflexivity.
Defined.

Lemma keys_unique_when_checked_witness :
  unique_keys Senders.router
    (run Senders.router Samples.post_post_delete_post initial).1.
Proof.
  apply (keys_unique_when_checked senders Samples.post_post_delete_post).
  unfold Samples.post_post_delete_post. repeat constructor.
Defined.

Lemma create_appends_witness :
  db (create_sender Samples.sender_b 2 Samples.one_sender).1
    = db Samples.one_sender
      ++ [(next_id Samples.one_sender,
           new_row Senders.router Samples.sender_b (next_id Samples.one_sender) 2)] ∧
  OrderedDict.get (next_id Samples.one_sender) (db Samples.one_sender) = None.
Proof.
  apply (create_appends senders
           [Create (R := Senders.router) Samples.sender_a 1] Samples.sender_b 2).
  vm_compute. reflexivity.
Defined.

Lemma set_active_twice_witness :
  (deactivate_sender 1 2 Samples.one_sender).2
    = Ok (<[ "updated_at" := VTime 2 ]> (<[ "is_active" := VBool false ]> Samples.sender_1)) ∧
  (deactivate_sender 1 3 (deactivate_sender 1 2 Samples.one_sender).1).2
    = Ok (<[ "updated_at" := VTime 3 ]> (<[ "is_active" := VBool false ]> Samples.sender_1)).
Proof.
  assert (OrderedDict.get 1 (db Samples.one_sender) = Some Samples.sender_1) as Hget
    by vm_cast_no_check (eq_refl (Some Samples.sender_1)).
  assert (presentable Senders.router Samples.sender_1) as Hrow
    by vm_cast_no_check (eq_refl (Ok Samples.sender_1)).
  destruct (set_active_twice senders false 1 2 3 Samples.one_sender Samples.sender_1
              Hget Hrow) as (H1 & _ & H2 & _).
  split; [exact H1 | exact H2].
Defined.

Lemma update_without_fields_witness :
  update_sender 1 Senders.nothing 2 Samples.one_sender
    = (Samples.one_sender, Ok Samples.sender_1) ∧
  patch_sender 1 Senders.nothing 2 Samples.one_sender
    = (Samples.one_sender, Ok Samples.sender_1).
Proof.
  apply (update_without_fields senders 1 Senders.nothing 2 Samples.one_sender
           Samples.sender_1).
  - vm_cast_no_check (eq_refl (Some Samples.sender_1)).
  - vm_cast_no_check (eq_refl (Ok Samples.sender_1)).
  - vm_cast_no_check (eq_refl (∅ : pydict)).
Defined.

Lemma reads_succeed_after_clean_history_witness :
  ∃ rows,
    get_senders 0 100 None
      (run Senders.router Samples.post_post_delete_post initial).1 = Ok rows.
Proof.
  refine (proj1 (proj2 (reads_succeed_after_clean_history senders
           Samples.post_post_delete_post _)) 0 100 None).
  apply clean_replies. vm_cast_no_check (eq_refl true).
Defined.

Lemma listing_page_bounded_and_filtered_witness :
  (0 ≤ 100 → Z.of_nat (length [Samples.sender_1]) ≤ 100) ∧
  [Samples.sender_1] ⊆ OrderedDict.values (db Samples.one_sender) ∧
  (∀ b, Some true = Some b →
        Forall (λ row : pydict, row !! "is_active" = Some (VBool b)) [Samples.sender_1]).
Proof.
  apply (listing_page_bounded_and_filtered senders 0 100 (Some true)
           Samples.one_sender [Samples.sender_1]).
  vm_cast_no_check (eq_refl (Ok [Samples.sender_1])).
Defined.

Lemma listing_pages_concatenate_witness :
  get_senders 0 (1 + 1) None Samples.one_sender = Ok ([Samples.sender_1] ++ []).
Proof.
  apply (listing_pages_concatenate senders 0 1 1 None Samples.one_sender).
  - lia.
  - lia.
  - lia.
  - vm_cast_no_check (eq_refl (Ok [Samples.sender_1])).
  - vm_cast_no_check (eq_refl (Ok ([] : list pydict))).
Defined.

Lemma deleted_key_is_free_witness :
  key_taken Senders.router Samples.sender_a Samples.one_sender = true ∧
  key_taken Senders.router Samples.sender_a
    (delete_sender 1 Samples.one_sender).1 = false.
Proof.
  apply (deleted_key_is_free senders
           [Create (R := Senders.router) Samples.sender_a 1] 1 Samples.sender_1
           Samples.sender_a).
  - repeat constructor.
  - vm_cast_no_check (eq_refl (Some Samples.sender_1)).
  - vm_cast_no_check (eq_refl (Some (VStr "a@x.com"))).
Defined.

Lemma updated_not_before_created_witness :
  0 ≤ last_reading 0 Samples.four_posted_one_off_one_gone ∧
  last_reading 0 Samples.four_posted_one_off_one_gone = 5 ∧
  Forall (λ row : pydict, ∃ a b,
            row !! "created_at" = Some (VTime a) ∧
            row !! "updated_at" = Some (VTime b) ∧
            a ≤ b ≤ last_reading 0 Samples.four_posted_one_off_one_gone)
    (OrderedDict.values
       (db (run Senders.router Samples.four_posted_one_off_one_gone initial).1)).
Proof.
  destruct (updated_not_before_created senders
              Samples.four_posted_one_off_one_gone 0) as [Hle Hall].
  - unfold Samples.four_posted_one_off_one_gone. simpl. lia.
  - split_and!; [exact Hle | reflexivity | exact Hall].
Defined.

Lemma update_merges_body_witness :
  OrderedDict.get 1 (db (update_station 1 (Samples.move_to "Zone A") 2 Samples.one_station).1)
    = Some Samples.station_1_moved ∧
  Samples.station_1_moved !! "updated_at" = Some (VTime 2) ∧
  Samples.station_1_moved !! "id" = Samples.station_1 !! "id" ∧
  Samples.station_1_moved !! "created_at" = Samples.station_1 !! "created_at".
Proof.
  assert (OrderedDict.get 1 (db Samples.one_station) = Some Samples.station_1) as Hget
    by vm_cast_no_check (eq_refl (Some Samples.station_1)).
  assert (model_dump_exclude_unset Stations.router (Samples.move_to "Zone A") ≠ ∅) as Hne.
  { intros Hempty.
    assert (model_dump_exclude_unset Stations.router (Samples.move_to "Zone A")
              !! "location" = Some (VStr "Zone A")) as Hloc
      by vm_cast_no_check (eq_refl (Some (VStr "Zone A"))).
    rewrite Hempty in Hloc. discriminate Hloc. }
  assert ((update Stations.router 1 (Samples.move_to "Zone A") 2 Samples.one_station).2
          = Ok Samples.station_1_moved) as Hres
    by vm_cast_no_check (eq_refl (Ok Samples.station_1_moved)).
  destruct (update_merges_body stations 1 (Samples.move_to "Zone A") 2
              Samples.one_station Samples.station_1 Samples.station_1_moved
              Hget Hne Hres) as (H1 & _ & Hu & _ & Hid & Hc & _).
  split_and!; [exact H1 | exact Hu | exact Hid | exact Hc].
Defined.

Lemma get_one_returns_requested_id_witness :
  OrderedDict.get 1 (db Samples.one_sender) = Some Samples.sender_1 ∧
  Samples.sender_1 !! "id" = Some (VInt 1) ∧
  0 < 1 < next_id Samples.one_sender.
Proof.
  apply (get_one_returns_requested_id senders
           [Create (R := Senders.router) Samples.sender_a 1] 1 Samples.sender_1).
  vm_cast_no_check (eq_refl (Ok Samples.sender_1)).
Defined.

Lemma http_exception_changes_nothing_witness :
  (handle Senders.router (Delete 7) Samples.one_sender).1 = Samples.one_sender ∧
  ((404 = 404 ∧ "Sender not found" = not_found_detail Senders.router) ∨
   (404 = 400 ∧ "Sender not found" = duplicate_detail Senders.router)).
Proof.
  apply (http_exception_changes_nothing senders (Delete 7) Samples.one_sender
           404 "Sender not found").
  vm_cast_no_check (eq_refl (HTTPException (A := option pydict) 404 "Sender not found")).
Defined.
